(** * CH32V003 basic system functions (system.c): model and properties

    The file embeds [software/tiny_pacman/include/system.c].  The code
    drives memory-mapped peripheral registers, so every function is a
    computation over an abstract device: a volatile read asks the
    device for a value, a write hands a value to it, and both are
    recorded, in program order, in a log of events.  Properties of the
    code are properties of that log (what was written, in which order,
    after which readback) that hold for every device. *)

From Stdlib Require Import ZArith List Bool Lia.
Import ListNotations.
Local Open Scope Z_scope.

(** ** Machine integers *)

(** [uint32_t] arithmetic wraps modulo 2^32. *)
Definition wrap32 (x : Z) : Z := x mod 2 ^ 32.

(** The conversion [(int32_t) x] of a 32-bit pattern. *)
Definition int32_t (x : Z) : Z :=
  let u := wrap32 x in if u <? 2 ^ 31 then u else u - 2 ^ 32.

(** ** Registers, events and devices *)

(** The peripheral registers system.c names. *)
Inductive reg : Set :=
| RCC_CTLR | RCC_CFGR0 | RCC_INTR | RCC_APB2PCENR | RCC_APB1PCENR
| FLASH_ACTLR | AFIO_PCFR1 | GPIOC_CFGLR
| STK_CNT
| IWDG_CTLR | IWDG_PSCR | IWDG_RLDR | IWDG_STATR
| EXTI_EVENR | EXTI_FTENR
| PWR_CTLR | PWR_AWUCSR
| PFIC_SCTLR.

Definition reg_eqb (a b : reg) : bool :=
  match a, b with
  | RCC_CTLR, RCC_CTLR | RCC_CFGR0, RCC_CFGR0 | RCC_INTR, RCC_INTR
  | RCC_APB2PCENR, RCC_APB2PCENR | RCC_APB1PCENR, RCC_APB1PCENR
  | FLASH_ACTLR, FLASH_ACTLR | AFIO_PCFR1, AFIO_PCFR1
  | GPIOC_CFGLR, GPIOC_CFGLR | STK_CNT, STK_CNT
  | IWDG_CTLR, IWDG_CTLR | IWDG_PSCR, IWDG_PSCR | IWDG_RLDR, IWDG_RLDR
  | IWDG_STATR, IWDG_STATR | EXTI_EVENR, EXTI_EVENR
  | EXTI_FTENR, EXTI_FTENR | PWR_CTLR, PWR_CTLR | PWR_AWUCSR, PWR_AWUCSR
  | PFIC_SCTLR, PFIC_SCTLR => true
  | _, _ => false
  end.

(** What system.c uses but system.h defines: function-like macros and
    inline assembly.  Their bodies are not part of system.c; a use is
    one opaque step of the device. *)
Inductive macro : Set :=
| m_LSI_enable      (* LSI_enable() *)
| m_WFI             (* __WFI() *)
| m_WFE             (* __WFE() *)
| m_CLK_init        (* CLK_init() *)
| m_STK_init        (* STK_init() *)
| asm_startup       (* gp, sp, mstatus, mtvec set-up of handle_reset *)
| asm_mret_main.    (* csrw mepc, main; mret *)

Definition macro_eqb (a b : macro) : bool :=
  match a, b with
  | m_LSI_enable, m_LSI_enable | m_WFI, m_WFI | m_WFE, m_WFE
  | m_CLK_init, m_CLK_init | m_STK_init, m_STK_init
  | asm_startup, asm_startup | asm_mret_main, asm_mret_main => true
  | _, _ => false
  end.

Inductive event : Set :=
| Load (r : reg) (v : Z)      (* a volatile read of [r] returned [v] *)
| Store (r : reg) (v : Z)     (* [v] was written to [r] *)
| Call (m : macro).           (* the macro or asm block was entered *)

(** A device answers reads, takes writes, and runs the opaque steps; an
    opaque step that never hands control back (a wait with no wake
    source, a clock that never locks) yields [None]. *)
Class Device (HW : Type) : Type := {
  dev_load  : reg -> HW -> Z * HW;
  dev_store : reg -> Z -> HW -> HW;
  dev_call  : macro -> HW -> option HW
}.

(** The constants of system.h (and of the vendor header it includes)
    that system.c refers to.  Their values are not in system.c. *)
Class SystemH : Set := {
  SYS_CLK_INIT : Z;  SYS_TICK_INIT : Z;  SYS_GPIO_EN : Z;
  CLK_DIV : Z;  HSITRIM : Z;
  RCC_IOPAEN : Z;  RCC_IOPCEN : Z;  RCC_IOPDEN : Z;  RCC_AFIOEN : Z;
  RCC_PWREN : Z;
  RCC_HSION : Z;  RCC_HSEON : Z;  RCC_HSERDY : Z;
  RCC_PLLON : Z;  RCC_PLLRDY : Z;
  RCC_SW : Z;  RCC_SW_HSE : Z;  RCC_SW_PLL : Z;  RCC_SWS : Z;
  RCC_HPRE_DIV1 : Z;
  RCC_PLLSRC_HSI_Mul2 : Z;  RCC_PLLSRC_HSE_Mul2 : Z;
  FLASH_ACTLR_LATENCY_0 : Z;  FLASH_ACTLR_LATENCY_1 : Z;
  AFIO_PCFR1_PA12_REMAP : Z;
  IWDG_PVU : Z;  IWDG_RVU : Z;
  PWR_AWUCSR_AWUEN : Z;  PWR_CTLR_PDDS : Z;
  PFIC_SLEEPDEEP : Z
}.

(** ** The monad of register-level code *)

Inductive outcome (A : Type) : Type :=
| Done (a : A)     (* the code returned [a] *)
| Hang.            (* the code is still waiting *)
Arguments Done {A} a.
Arguments Hang {A}.

Record run (HW A : Type) : Type := mkRun {
  out : outcome A;        (* how far the code got *)
  dev : HW;               (* the device afterwards *)
  evs : list event        (* what the code did, oldest first *)
}.
Arguments mkRun {HW A} out dev evs.
Arguments out {HW A} r.
Arguments dev {HW A} r.
Arguments evs {HW A} r.

Definition M (HW A : Type) : Type := HW -> run HW A.

Definition ret {HW A} (a : A) : M HW A := fun h => mkRun (Done a) h [].

(** Run [r], with the events [l] before its own. *)
Definition prepend {HW A} (l : list event) (r : run HW A) : run HW A :=
  mkRun (out r) (dev r) (l ++ evs r).

Definition bind {HW A B} (m : M HW A) (k : A -> M HW B) : M HW B :=
  fun h =>
    let r := m h in
    match out r with
    | Done a => prepend (evs r) (k a (dev r))
    | Hang => mkRun Hang (dev r) (evs r)
    end.

Notation "x <- m ;; k" := (bind m (fun x => k))
  (at level 61, m at next level, right associativity).
Notation "m ;; k" := (bind m (fun _ => k))
  (at level 61, right associativity).

Section Primitives.
Context {HW : Type} `{Device HW}.

(** [*r] as an rvalue: a 32-bit volatile read. *)
Definition load (r : reg) : M HW Z :=
  fun h => let v := wrap32 (fst (dev_load r h)) in
           mkRun (Done v) (snd (dev_load r h)) [Load r v].

(** [*r = v]: a 32-bit volatile write. *)
Definition store (r : reg) (v : Z) : M HW unit :=
  fun h => mkRun (Done tt) (dev_store r (wrap32 v) h) [Store r (wrap32 v)].

(** A macro of system.h or an asm block. *)
Definition call (m : macro) : M HW unit :=
  fun h => match dev_call m h with
           | Some h' => mkRun (Done tt) h' [Call m]
           | None => mkRun Hang h [Call m]
           end.

(** [while (cond) body;], run for at most [fuel] tests of [cond]. *)
Fixpoint while_ (fuel : nat) (cond : M HW bool) (body : M HW unit)
  : M HW unit :=
  match fuel with
  | O => fun h => mkRun Hang h []
  | S k => b <- cond ;;
           if b then body ;; while_ k cond body else ret tt
  end.
End Primitives.

(** ** system.c *)

Section SystemC.
Context {HW : Type} `{Device HW} `{SystemH}.

Definition LSI_enable : M HW unit := call m_LSI_enable.
Definition __WFI : M HW unit := call m_WFI.
Definition __WFE : M HW unit := call m_WFE.
Definition CLK_init : M HW unit := call m_CLK_init.
Definition STK_init : M HW unit := call m_STK_init.

(** [r |= v] and [r &= ~v]. *)
Definition set_bits (r : reg) (v : Z) : M HW unit :=
  x <- load r ;; store r (Z.lor x v).
Definition clear_bits (r : reg) (v : Z) : M HW unit :=
  x <- load r ;; store r (Z.land x (Z.lnot v)).

(** *** Sleep functions *)

Definition SLEEP_WFI_now : M HW unit :=
  clear_bits PWR_CTLR PWR_CTLR_PDDS ;;
  __WFI.

Definition SLEEP_WFE_now : M HW unit :=
  clear_bits PWR_CTLR PWR_CTLR_PDDS ;;
  __WFE.

Definition STDBY_WFI_now : M HW unit :=
  set_bits PWR_CTLR PWR_CTLR_PDDS ;;
  set_bits PFIC_SCTLR PFIC_SLEEPDEEP ;;
  __WFI ;;
  clear_bits PFIC_SCTLR PFIC_SLEEPDEEP.

Definition STDBY_WFE_now : M HW unit :=
  set_bits PWR_CTLR PWR_CTLR_PDDS ;;
  set_bits PFIC_SCTLR PFIC_SLEEPDEEP ;;
  __WFE ;;
  clear_bits PFIC_SCTLR PFIC_SLEEPDEEP.

(** *** System clock functions *)

(** A busy-wait [while (test( *r ));]: poll [r] while [test] holds. *)
Definition poll_while (fuel : nat) (r : reg) (test : Z -> bool)
  : M HW unit :=
  while_ fuel (x <- load r ;; ret (test x)) (ret tt).

Definition CLK_init_HSI : M HW unit :=
  store FLASH_ACTLR FLASH_ACTLR_LATENCY_0 ;;
  store RCC_INTR 0x009F0000 ;;
  store RCC_CFGR0 CLK_DIV ;;
  store RCC_CTLR (Z.lor RCC_HSION (Z.shiftl HSITRIM 3)).

Definition CLK_init_HSI_PLL (fuel : nat) : M HW unit :=
  store FLASH_ACTLR FLASH_ACTLR_LATENCY_1 ;;
  store RCC_INTR 0x009F0000 ;;
  store RCC_CFGR0 (Z.lor CLK_DIV RCC_PLLSRC_HSI_Mul2) ;;
  store RCC_CTLR
    (Z.lor (Z.lor RCC_HSION RCC_PLLON) (Z.shiftl HSITRIM 3)) ;;
  poll_while fuel RCC_CTLR (fun x => Z.land x RCC_PLLRDY =? 0) ;;
  (x <- load RCC_CFGR0 ;;
   store RCC_CFGR0
     (Z.lor (Z.land x (wrap32 (Z.lnot RCC_SW))) (wrap32 RCC_SW_PLL))) ;;
  poll_while fuel RCC_CFGR0
    (fun x => negb (Z.land x (wrap32 RCC_SWS) =? wrap32 0x08)).

Definition CLK_init_HSE (fuel : nat) : M HW unit :=
  set_bits RCC_APB2PCENR RCC_AFIOEN ;;
  set_bits AFIO_PCFR1 AFIO_PCFR1_PA12_REMAP ;;
  store FLASH_ACTLR FLASH_ACTLR_LATENCY_0 ;;
  store RCC_CTLR (Z.lor (Z.lor RCC_HSION RCC_HSEON) RCC_PLLON) ;;
  poll_while fuel RCC_CTLR (fun x => Z.land x RCC_HSERDY =? 0) ;;
  store RCC_CFGR0 (Z.lor RCC_HPRE_DIV1 RCC_SW_HSE) ;;
  poll_while fuel RCC_CFGR0
    (fun x => negb (Z.land x (wrap32 RCC_SWS) =? wrap32 0x04)) ;;
  store RCC_CTLR RCC_HSEON.

Definition CLK_init_HSE_PLL (fuel : nat) : M HW unit :=
  set_bits RCC_APB2PCENR RCC_AFIOEN ;;
  set_bits AFIO_PCFR1 AFIO_PCFR1_PA12_REMAP ;;
  store RCC_CTLR (Z.lor (Z.lor RCC_HSION RCC_HSEON) RCC_PLLON) ;;
  poll_while fuel RCC_CTLR (fun x => Z.land x RCC_HSERDY =? 0) ;;
  store RCC_CFGR0 (Z.lor RCC_SW_HSE RCC_HPRE_DIV1) ;;
  store FLASH_ACTLR FLASH_ACTLR_LATENCY_1 ;;
  store RCC_CTLR RCC_HSEON ;;
  store RCC_CFGR0
    (Z.lor (Z.lor RCC_SW_HSE RCC_HPRE_DIV1) RCC_PLLSRC_HSE_Mul2) ;;
  store RCC_CTLR (Z.lor RCC_HSEON RCC_PLLON) ;;
  poll_while fuel RCC_CTLR (fun x => Z.land x RCC_PLLRDY =? 0) ;;
  store RCC_CFGR0
    (Z.lor (Z.lor RCC_SW_PLL RCC_HPRE_DIV1) RCC_PLLSRC_HSE_Mul2) ;;
  poll_while fuel RCC_CFGR0
    (fun x => negb (Z.land x (wrap32 RCC_SWS) =? wrap32 0x08)).

Definition MCO_init : M HW unit :=
  set_bits RCC_APB2PCENR (Z.lor RCC_AFIOEN RCC_IOPCEN) ;;
  clear_bits GPIOC_CFGLR (Z.shiftl 0xF (Z.shiftl 4 2)) ;;
  set_bits GPIOC_CFGLR (Z.shiftl 0xB (Z.shiftl 4 2)).

(** *** Delay *)

Definition DLY_ticks (fuel : nat) (n : Z) : M HW unit :=
  c <- load STK_CNT ;;
  let end_ := wrap32 (c + n) in
  poll_while fuel STK_CNT (fun now => int32_t (wrap32 (now - end_)) <? 0).

(** *** Independent watchdog *)

Definition IWDG_start (fuel : nat) (ms : Z) : M HW unit :=
  LSI_enable ;;
  store IWDG_CTLR 0x5555 ;;
  poll_while fuel IWDG_STATR (fun x => negb (Z.land x IWDG_PVU =? 0)) ;;
  store IWDG_PSCR 0x7 ;;
  poll_while fuel IWDG_STATR (fun x => negb (Z.land x IWDG_RVU =? 0)) ;;
  store IWDG_RLDR (Z.shiftr ms 1) ;;
  store IWDG_CTLR 0xAAAA ;;
  store IWDG_CTLR 0xCCCC.

Definition IWDG_reload (fuel : nat) (ms : Z) : M HW unit :=
  store IWDG_CTLR 0x5555 ;;
  poll_while fuel IWDG_STATR (fun x => negb (Z.land x IWDG_RVU =? 0)) ;;
  store IWDG_RLDR (Z.shiftr ms 1) ;;
  store IWDG_CTLR 0xAAAA.

(** *** Automatic wake-up timer *)

Definition AWU_init : M HW unit :=
  LSI_enable ;;
  set_bits EXTI_EVENR (Z.shiftl 1 9) ;;
  set_bits EXTI_FTENR (Z.shiftl 1 9) ;;
  set_bits RCC_APB1PCENR RCC_PWREN ;;
  store PWR_AWUCSR PWR_AWUCSR_AWUEN.

(** *** Default interrupt handler: [while (1);] *)

Definition DefaultIRQHandler (fuel : nat) : M HW unit :=
  while_ fuel (ret true) (ret tt).

(** *** Set-up called at start-up *)

Definition SYS_init : M HW unit :=
  (if SYS_CLK_INIT >? 0 then CLK_init else ret tt) ;;
  (if SYS_TICK_INIT >? 0 then STK_init else ret tt) ;;
  (if SYS_GPIO_EN >? 0
   then set_bits RCC_APB2PCENR
          (Z.lor (Z.lor RCC_IOPAEN RCC_IOPCEN) RCC_IOPDEN)
   else ret tt).
End SystemC.

(** ** Start-up code *)

(** Data memory (RAM and the flash image), one 32-bit word per aligned
    byte address. *)
Definition memory : Type := Z -> Z.

Definition poke (m : memory) (a v : Z) : memory :=
  fun x => if x =? a then v else m x.

(** The addresses the linker script provides. *)
Class LinkerScript : Set := {
  _sbss : Z;  _ebss : Z;
  _data_lma : Z;  _data_vma : Z;  _edata : Z
}.

Section Startup.
Context {HW : Type} `{Device HW} `{SystemH} `{LinkerScript}.

(** [while (dst < &_ebss) *dst++ = 0;] *)
Fixpoint clear_bss (fuel : nat) (dst : Z) (m : memory) : option memory :=
  match fuel with
  | O => None
  | S k => if dst <? _ebss
           then clear_bss k (wrap32 (dst + 4)) (poke m dst 0)
           else Some m
  end.

(** [while (dst < &_edata) *dst++ = *src++;] *)
Fixpoint copy_data (fuel : nat) (src dst : Z) (m : memory)
  : option memory :=
  match fuel with
  | O => None
  | S k => if dst <? _edata
           then copy_data k (wrap32 (src + 4)) (wrap32 (dst + 4))
                  (poke m dst (m src))
           else Some m
  end.

(** [handle_reset], from the reset vector up to the [mret] that
    enters [main]; the result is data memory at that point.  system.c
    is a C source: its [#ifdef __cplusplus] parts are not compiled. *)
Definition handle_reset (fuel : nat) (m : memory) : M HW memory :=
  call asm_startup ;;
  match clear_bss fuel _sbss m with
  | None => fun h => mkRun Hang h []
  | Some m1 =>
      match copy_data fuel _data_lma _data_vma m1 with
      | None => fun h => mkRun Hang h []
      | Some m2 =>
          SYS_init ;;
          call asm_mret_main ;;
          ret m2
      end
  end.
End Startup.

(** ** Reading a log *)

Definition is_load (r : reg) (e : event) : bool :=
  match e with Load r' _ => reg_eqb r r' | _ => false end.

Definition is_store (r : reg) (e : event) : bool :=
  match e with Store r' _ => reg_eqb r r' | _ => false end.

Definition is_call (m : macro) (e : event) : bool :=
  match e with Call m' => macro_eqb m m' | _ => false end.

(** A write to [r] whose value has every bit of [mask] set, resp. none
    of them. *)
Definition store_with (r : reg) (mask : Z) (e : event) : bool :=
  match e with
  | Store r' v => reg_eqb r r' && (Z.land v mask =? mask)
  | _ => false
  end.

Definition store_without (r : reg) (mask : Z) (e : event) : bool :=
  match e with
  | Store r' v => reg_eqb r r' && (Z.land v mask =? 0)
  | _ => false
  end.

(** A read of [r] that found [want] under [mask]. *)
Definition load_field (r : reg) (mask want : Z) (e : event) : bool :=
  match e with
  | Load r' v => reg_eqb r r' && (Z.land v mask =? want)
  | _ => false
  end.

(** A read of [r] that found some bit of [mask] set. *)
Definition load_flag (r : reg) (mask : Z) (e : event) : bool :=
  match e with
  | Load r' v => reg_eqb r r' && negb (Z.land v mask =? 0)
  | _ => false
  end.

(** [precedesb P Q l]: no event of [l] satisfies [Q] unless an earlier
    event of [l] satisfies [P]. *)
Fixpoint precedesb (P Q : event -> bool) (l : list event) : bool :=
  match l with
  | [] => true
  | e :: l' => if Q e then false
               else if P e then true
               else precedesb P Q l'
  end.

(** The values written to [r], oldest first. *)
Fixpoint stores_to (r : reg) (l : list event) : list Z :=
  match l with
  | [] => []
  | Store r' v :: l' => if reg_eqb r r' then v :: stores_to r l'
                        else stores_to r l'
  | _ :: l' => stores_to r l'
  end.

(** The registers written, oldest first. *)
Fixpoint written (l : list event) : list reg :=
  match l with
  | [] => []
  | Store r _ :: l' => r :: written l'
  | _ :: l' => written l'
  end.

(** ** Assumptions a device may satisfy *)

(** SysTick counts up freely: [count] is the number of ticks since some
    origin (unbounded), it never goes back, and a read of [STK->CNT]
    samples it, modulo 2^32, somewhere during the read. *)
Class FreeRunning {HW : Type} `{Device HW} (count : HW -> Z) : Prop := {
  count_sample : forall h,
    exists c, count h <= c <= count (snd (dev_load STK_CNT h)) /\
              wrap32 (fst (dev_load STK_CNT h)) = wrap32 c
}.

(** Register [r] is plain storage: [peek] is its content, which only a
    write to [r] changes, and which a read of [r] returns. *)
Class Latched {HW : Type} `{Device HW} (r : reg) (peek : HW -> Z) : Prop := {
  latch_store : forall v h, peek (dev_store r v h) = v;
  latch_other : forall r' v h, reg_eqb r r' = false ->
                               peek (dev_store r' v h) = peek h;
  latch_load : forall r' h, peek (snd (dev_load r' h)) = peek h;
  latch_read : forall h, wrap32 (fst (dev_load r h)) = wrap32 (peek h);
  latch_call : forall m h h', dev_call m h = Some h' -> peek h' = peek h
}.

(** ** A concrete header and a simulated device *)

(** The values of the WCH CH32V003 header, with the clock set-up, tick
    and GPIO steps of [SYS_init] all switched on. *)
Definition ch32v003_h : SystemH := {|
  SYS_CLK_INIT := 1;  SYS_TICK_INIT := 1;  SYS_GPIO_EN := 1;
  CLK_DIV := 0;  HSITRIM := 0x10;
  RCC_IOPAEN := 0x4;  RCC_IOPCEN := 0x10;  RCC_IOPDEN := 0x20;
  RCC_AFIOEN := 0x1;  RCC_PWREN := 0x10000000;
  RCC_HSION := 0x1;  RCC_HSEON := 0x10000;  RCC_HSERDY := 0x20000;
  RCC_PLLON := 0x1000000;  RCC_PLLRDY := 0x2000000;
  RCC_SW := 0x3;  RCC_SW_HSE := 0x1;  RCC_SW_PLL := 0x2;  RCC_SWS := 0xC;
  RCC_HPRE_DIV1 := 0;
  RCC_PLLSRC_HSI_Mul2 := 0;  RCC_PLLSRC_HSE_Mul2 := 0x10000;
  FLASH_ACTLR_LATENCY_0 := 0;  FLASH_ACTLR_LATENCY_1 := 1;
  AFIO_PCFR1_PA12_REMAP := 0x8000;
  IWDG_PVU := 0x1;  IWDG_RVU := 0x2;
  PWR_AWUCSR_AWUEN := 0x2;  PWR_CTLR_PDDS := 0x2;
  PFIC_SLEEPDEEP := 0x4
|}.

(** A register file with a little behaviour: status bits follow the
    control bits two reads after the last write, SysTick advances with
    every access, the watchdog reload register keeps 12 bits. *)
Record sim : Type := mkSim {
  regs : reg -> Z;      (* register contents *)
  lag : nat;            (* reads left until the status bits settle *)
  ticks : Z             (* SysTick ticks since power-on *)
}.

Definition flag (v on rdy : Z) : Z :=
  if Z.land v on =? 0 then 0 else rdy.

(** Status as the hardware reports it once settled. *)
Definition settle (f : reg -> Z) : reg -> Z :=
  fun r =>
    match r with
    | RCC_CTLR =>
        let v := f RCC_CTLR in
        Z.lor (Z.lor (Z.lor (Z.land v (Z.lnot 0x2020002))
                            (flag v 0x1 0x2))
                     (flag v 0x10000 0x20000))
              (flag v 0x1000000 0x2000000)
    | RCC_CFGR0 =>
        let v := f RCC_CFGR0 in
        Z.lor (Z.land v (Z.lnot 0xC)) (Z.shiftl (Z.land v 0x3) 2)
    | IWDG_STATR => 0
    | _ => f r
    end.

Definition sim_load (r : reg) (s : sim) : Z * sim :=
  let f := match lag s with O => settle (regs s) | S _ => regs s end in
  let t := ticks s + 3 in
  (match r with STK_CNT => t | _ => f r end, mkSim f (pred (lag s)) t).

Definition sim_store (r : reg) (v : Z) (s : sim) : sim :=
  let keep old := Z.lor (Z.land v (Z.lnot 0xC)) (Z.land old 0xC) in
  let f := fun r' =>
    if reg_eqb r r' then
      match r with
      | IWDG_RLDR => Z.land v 0xFFF
      | RCC_CFGR0 => keep (regs s RCC_CFGR0)
      | _ => v
      end
    else match r' with
         | IWDG_STATR => 0x3
         | _ => regs s r'
         end in
  mkSim f 2 (ticks s + 1).

Definition sim_call (m : macro) (s : sim) : option sim :=
  Some (mkSim (regs s) (lag s) (ticks s + 100)).

#[export] Instance sim_device : Device sim := {|
  dev_load := sim_load;
  dev_store := sim_store;
  dev_call := sim_call
|}.

(** The simulated device after power-on, with SysTick at [t]: running
    from the internal oscillator, everything else zero. *)
Definition sim_at (t : Z) : sim :=
  mkSim (fun r => match r with RCC_CTLR => 0x83 | _ => 0 end) 0 t.

(** A device on which nothing ever becomes ready and no wait ends. *)
Inductive dead : Set := Dead.

Definition dead_device : Device dead := {|
  dev_load := fun _ h => (0, h);
  dev_store := fun _ _ h => h;
  dev_call := fun _ _ => None
|}.

(** A small memory image: flash words at 0x1000.., RAM elsewhere holding
    junk. *)
Definition demo_layout : LinkerScript := {|
  _sbss := 0x20000010;  _ebss := 0x2000001C;
  _data_lma := 0x1000;  _data_vma := 0x20000000;  _edata := 0x2000000C
|}.

Definition demo_memory : memory :=
  fun a => if a <? 0x20000000 then a + 7 else 0xDEADBEEF.

(** ** Properties of a run, as the specification words them *)

(** The deep-sleep flag [sd] brackets the wait [m]: the wait is entered,
    and only after a write of the core's system control register with
    the flag set; no write with the flag clear comes before the wait;
    a wait that does not end leaves the flag alone; and a run that
    returns ends on a write with the flag clear. *)
Definition brackets_wait {HW : Type} (sd : Z) (m : macro) (r : run HW unit)
  : Prop :=
  existsb (is_call m) (evs r) = true /\
  precedesb (store_with PFIC_SCTLR sd) (is_call m) (evs r) = true /\
  precedesb (is_call m) (store_without PFIC_SCTLR sd) (evs r) = true /\
  (out r = Hang -> existsb (store_without PFIC_SCTLR sd) (evs r) = false) /\
  (out r = Done tt ->
   exists l v, evs r = l ++ [Store PFIC_SCTLR v] /\ Z.land v sd = 0).

(** [new] is [old] with the bits of [mask] cleared and nothing else
    changed. *)
Definition clears_only (mask old new : Z) : Prop :=
  forall i, 0 <= i ->
            Z.testbit new i = Z.testbit old i && negb (Z.testbit mask i).

(** Run [r] wrote the watchdog reload register exactly once, with [v],
    if it returned, and not at all if it is still waiting. *)
Definition reload_written {HW : Type} (v : Z) (r : run HW unit) : Prop :=
  stores_to IWDG_RLDR (evs r)
  = match out r with Done _ => [v] | Hang => [] end.

(** Modelled from the spec: the watchdog period is "bounded to the
    representable maximum", documented as 8191 ms; at one count per
    2 ms that is a 12-bit reload field, which the hardware header (not
    part of system.c) would give as the width of [IWDG->RLDR]. *)
Definition IWDG_RLDR_MAX : Z := 0xFFF.

(** What the linker script promises about its symbols: they are word
    aligned and lie in the 32-bit address space, and the zeroed region,
    the initialised-data region and the image the latter is loaded from
    do not overlap. *)
Record layout_ok `{LinkerScript} : Prop := {
  symbols_aligned :
    _sbss mod 4 = 0 /\ _ebss mod 4 = 0 /\ _data_lma mod 4 = 0 /\
    _data_vma mod 4 = 0 /\ _edata mod 4 = 0;
  symbols_in_range :
    0 <= _sbss /\ _ebss <= 2 ^ 32 - 4 /\
    0 <= _data_vma /\ _edata <= 2 ^ 32 - 4 /\
    0 <= _data_lma /\ _data_lma + (_edata - _data_vma) <= 2 ^ 32 - 4;
  bss_data_apart : _ebss <= _data_vma \/ _edata <= _sbss;
  image_data_apart :
    _data_lma + (_edata - _data_vma) <= _data_vma \/ _edata <= _data_lma;
  image_bss_apart :
    _data_lma + (_edata - _data_vma) <= _sbss \/ _ebss <= _data_lma
}.

(** The words of the zeroed region and of the initialised-data region. *)
Definition bss_word `{LinkerScript} (a : Z) : Prop :=
  _sbss <= a < _ebss /\ a mod 4 = 0.

Definition data_word `{LinkerScript} (a : Z) : Prop :=
  _data_vma <= a < _edata /\ a mod 4 = 0.

(** [l] is a polling loop on [r] that came to its end: reads of [r]
    only, each but the last finding the loop condition [waiting] true,
    the last finding it false. *)
Definition poll_log (r : reg) (waiting : Z -> bool) (l : list event) : Prop :=
  exists ws v, l = map (Load r) (ws ++ [v]) /\
               Forall (fun x => waiting x = true) ws /\
               waiting v = false.

(** The clock switch was confirmed in [l]: the last access to the clock
    configuration register is a read that showed [want] in the
    switch-status field [sws]. *)
Definition confirmed (sws want : Z) (l : list event) : Prop :=
  exists l1 v l2,
    l = l1 ++ Load RCC_CFGR0 v :: l2 /\
    Z.land v sws = want /\
    existsb (is_load RCC_CFGR0) l2 = false /\
    existsb (is_store RCC_CFGR0) l2 = false.

(** The clock functions with a multiplier or a crystal, event by
    event, when they return. *)
Definition HSI_PLL_order `{SystemH} (l : list event) : Prop :=
  exists p1 c p2,
    l = [Store FLASH_ACTLR (wrap32 FLASH_ACTLR_LATENCY_1);
         Store RCC_INTR (wrap32 0x009F0000);
         Store RCC_CFGR0 (wrap32 (Z.lor CLK_DIV RCC_PLLSRC_HSI_Mul2));
         Store RCC_CTLR
           (wrap32 (Z.lor (Z.lor RCC_HSION RCC_PLLON) (Z.shiftl HSITRIM 3)))]
        ++ p1
        ++ [Load RCC_CFGR0 c;
            Store RCC_CFGR0
              (wrap32 (Z.lor (Z.land c (wrap32 (Z.lnot RCC_SW)))
                             (wrap32 RCC_SW_PLL)))]
        ++ p2 /\
    poll_log RCC_CTLR (fun x => Z.land x RCC_PLLRDY =? 0) p1 /\
    poll_log RCC_CFGR0
      (fun x => negb (Z.land x (wrap32 RCC_SWS) =? wrap32 0x08)) p2.

Definition HSE_order `{SystemH} (l : list event) : Prop :=
  exists a b p1 p2,
    l = [Load RCC_APB2PCENR a;
         Store RCC_APB2PCENR (wrap32 (Z.lor a RCC_AFIOEN));
         Load AFIO_PCFR1 b;
         Store AFIO_PCFR1 (wrap32 (Z.lor b AFIO_PCFR1_PA12_REMAP));
         Store FLASH_ACTLR (wrap32 FLASH_ACTLR_LATENCY_0);
         Store RCC_CTLR
           (wrap32 (Z.lor (Z.lor RCC_HSION RCC_HSEON) RCC_PLLON))]
        ++ p1
        ++ [Store RCC_CFGR0 (wrap32 (Z.lor RCC_HPRE_DIV1 RCC_SW_HSE))]
        ++ p2
        ++ [Store RCC_CTLR (wrap32 RCC_HSEON)] /\
    poll_log RCC_CTLR (fun x => Z.land x RCC_HSERDY =? 0) p1 /\
    poll_log RCC_CFGR0
      (fun x => negb (Z.land x (wrap32 RCC_SWS) =? wrap32 0x04)) p2.

Definition HSE_PLL_order `{SystemH} (l : list event) : Prop :=
  exists a b p0 p1 p2,
    l = [Load RCC_APB2PCENR a;
         Store RCC_APB2PCENR (wrap32 (Z.lor a RCC_AFIOEN));
         Load AFIO_PCFR1 b;
         Store AFIO_PCFR1 (wrap32 (Z.lor b AFIO_PCFR1_PA12_REMAP));
         Store RCC_CTLR
           (wrap32 (Z.lor (Z.lor RCC_HSION RCC_HSEON) RCC_PLLON))]
        ++ p0
        ++ [Store RCC_CFGR0 (wrap32 (Z.lor RCC_SW_HSE RCC_HPRE_DIV1));
            Store FLASH_ACTLR (wrap32 FLASH_ACTLR_LATENCY_1);
            Store RCC_CTLR (wrap32 RCC_HSEON);
            Store RCC_CFGR0
              (wrap32 (Z.lor (Z.lor RCC_SW_HSE RCC_HPRE_DIV1)
                             RCC_PLLSRC_HSE_Mul2));
            Store RCC_CTLR (wrap32 (Z.lor RCC_HSEON RCC_PLLON))]
        ++ p1
        ++ [Store RCC_CFGR0
              (wrap32 (Z.lor (Z.lor RCC_SW_PLL RCC_HPRE_DIV1)
                             RCC_PLLSRC_HSE_Mul2))]
        ++ p2 /\
    poll_log RCC_CTLR (fun x => Z.land x RCC_HSERDY =? 0) p0 /\
    poll_log RCC_CTLR (fun x => Z.land x RCC_PLLRDY =? 0) p1 /\
    poll_log RCC_CFGR0
      (fun x => negb (Z.land x (wrap32 RCC_SWS) =? wrap32 0x08)) p2.

(** Run [r], if it returned, confirmed the switch to the source that
    shows as [want] in the switch-status field [sws]. *)
Definition confirmed_on_return {HW : Type} (sws want : Z) (r : run HW unit)
  : Prop :=
  out r = Done tt -> confirmed sws want (evs r).

(** In [l] no write of the clock control register with the bits [on]
    set comes before a write of the flash wait states. *)
Definition latency_before_enable (on : Z) (l : list event) : Prop :=
  precedesb (is_store FLASH_ACTLR) (store_with RCC_CTLR on) l = true.

(** In [l] no write of the clock control register with the bits [pllon]
    set comes before a read of that register that showed [rdy]. *)
Definition ready_before_PLL_on (rdy pllon : Z) (l : list event) : Prop :=
  precedesb (load_flag RCC_CTLR rdy) (store_with RCC_CTLR pllon) l = true.

(** In [l] no write of the clock control register with the bits [off]
    clear comes before a read of the clock configuration register that
    showed [want] in the switch-status field [sws]. *)
Definition switch_confirmed_before_off (sws want off : Z) (l : list event)
  : Prop :=
  precedesb (load_field RCC_CFGR0 sws want) (store_without RCC_CTLR off) l
  = true.

(** Whether a run returned. *)
Definition returned {HW A : Type} (r : run HW A) : bool :=
  match out r with Done _ => true | Hang => false end.

(** ** Further assumptions and properties *)

(** [new] is [old] with the bits of [mask] set (those that fit a 32-bit
    register) and nothing else changed. *)
Definition sets_only (mask old new : Z) : Prop :=
  forall i, 0 <= i ->
            Z.testbit new i
            = Z.testbit old i || ((i <? 32) && Z.testbit mask i).

(** A read or a write of [r]. *)
Definition is_access (r : reg) (e : event) : bool :=
  is_load r e || is_store r e.

(** SysTick as a polling loop sees it: a read of [STK->CNT] returns the
    count at the end of the read, time has passed since the read before,
    and at most [D] ticks of it. *)
Class Paced {HW : Type} `{Device HW} (count : HW -> Z) (D : Z) : Prop := {
  pace_sample : forall h,
    wrap32 (fst (dev_load STK_CNT h))
    = wrap32 (count (snd (dev_load STK_CNT h)));
  pace_step : forall h,
    count h < count (snd (dev_load STK_CNT h)) <= count h + D
}.

(** ** Devices on which the watchdog functions return *)

(** Reading [r] again and again, starting at [h], shows the bits of
    [mask] clear within [n] reads. *)
Fixpoint clears_within {HW : Type} `{Device HW} (r : reg) (mask : Z)
         (n : nat) (h : HW) : bool :=
  match n with
  | O => false
  | S k => (Z.land (wrap32 (fst (dev_load r h))) mask =? 0)
           || clears_within r mask k (snd (dev_load r h))
  end.

(** The busy flag [mask] of the watchdog goes away: after a write of
    any register, the watchdog status register shows it clear within
    [n] reads. *)
Class Settling {HW : Type} `{Device HW} (mask : Z) (n : nat) : Prop :=
  settles : forall r v h,
    clears_within IWDG_STATR mask n (dev_store r v h) = true.

(** The watchdog reload register keeps the bits of its reload field,
    [IWDG_RLDR_MAX], of what is written to it: [peek] is its content. *)
Class ReloadField {HW : Type} `{Device HW} (peek : HW -> Z) : Prop := {
  field_store : forall v h,
    peek (dev_store IWDG_RLDR v h) = Z.land v IWDG_RLDR_MAX;
  field_other : forall r v h, reg_eqb IWDG_RLDR r = false ->
                              peek (dev_store r v h) = peek h
}.

(** A write of the key [k] to the watchdog control register; the keys
    that load the counter and start the watchdog. *)
Definition is_key_store (k : Z) (e : event) : bool :=
  match e with
  | Store r v => reg_eqb IWDG_CTLR r && (v =? k)
  | _ => false
  end.

Definition is_arming_key (e : event) : bool :=
  is_key_store 0xAAAA e || is_key_store 0xCCCC e.

(** The watchdog functions, event by event, when they return. *)
Definition IWDG_start_order `{SystemH} (ms : Z) (l : list event) : Prop :=
  exists p1 p2,
    l = [Call m_LSI_enable; Store IWDG_CTLR 0x5555]
        ++ p1
        ++ [Store IWDG_PSCR 0x7]
        ++ p2
        ++ [Store IWDG_RLDR (wrap32 (Z.shiftr ms 1));
            Store IWDG_CTLR 0xAAAA; Store IWDG_CTLR 0xCCCC] /\
    poll_log IWDG_STATR (fun x => negb (Z.land x IWDG_PVU =? 0)) p1 /\
    poll_log IWDG_STATR (fun x => negb (Z.land x IWDG_RVU =? 0)) p2.

Definition IWDG_reload_order `{SystemH} (ms : Z) (l : list event) : Prop :=
  exists p,
    l = [Store IWDG_CTLR 0x5555]
        ++ p
        ++ [Store IWDG_RLDR (wrap32 (Z.shiftr ms 1));
            Store IWDG_CTLR 0xAAAA] /\
    poll_log IWDG_STATR (fun x => negb (Z.land x IWDG_RVU =? 0)) p.

(* ================================================================= *)
(** * Properties *)

Arguments wrap32 : simpl never.

(** ** Bits of 32-bit values *)

Lemma wrap32_range (x : Z) : 0 <= wrap32 x < 2 ^ 32.
Proof. unfold wrap32. apply Z.mod_pos_bound. lia. Qed.

Lemma wrap32_small (x : Z) : 0 <= x < 2 ^ 32 -> wrap32 x = x.
Proof. intros. unfold wrap32. now apply Z.mod_small. Qed.

Lemma wrap32_idem (x : Z) : wrap32 (wrap32 x) = wrap32 x.
Proof. apply wrap32_small, wrap32_range. Qed.

Lemma wrap32_bit (x i : Z) :
  0 <= i -> Z.testbit (wrap32 x) i = (i <? 32) && Z.testbit x i.
Proof. intros. unfold wrap32. apply Z.testbit_mod_pow2; lia. Qed.

Ltac bits :=
  apply Z.bits_inj'; intros ? ?;
  repeat first [ rewrite wrap32_bit by assumption
               | rewrite Z.land_spec | rewrite Z.lor_spec
               | rewrite Z.lnot_spec by assumption
               | rewrite Z.bits_0 ];
  repeat match goal with
         | |- context [Z.testbit ?a ?b] => destruct (Z.testbit a b)
         | |- context [?a <? ?b] => destruct (a <? b)
         end; reflexivity.

Lemma set_then_set (x m : Z) :
  Z.land (wrap32 (Z.lor x m)) (wrap32 m) = wrap32 m.
Proof. bits. Qed.

Lemma clear_then_clear (x m : Z) :
  Z.land (wrap32 (Z.land x (Z.lnot m))) (wrap32 m) = 0.
Proof. bits. Qed.

Lemma clear_bit (x m i : Z) :
  0 <= i ->
  Z.testbit (wrap32 (Z.land (wrap32 x) (Z.lnot m))) i
  = Z.testbit (wrap32 x) i && negb (Z.testbit m i).
Proof.
  intros. rewrite !wrap32_bit, Z.land_spec, wrap32_bit, Z.lnot_spec by lia.
  destruct (i <? 32), (Z.testbit x i), (Z.testbit m i); reflexivity.
Qed.

(** ** Equations of the monad *)

Section RunLemmas.
Context {HW : Type} `{Device HW}.

Lemma bind_run {A B} (m : M HW A) (k : A -> M HW B) (h : HW) :
  bind m k h
  = match out (m h) with
    | Done a => prepend (evs (m h)) (k a (dev (m h)))
    | Hang => mkRun Hang (dev (m h)) (evs (m h))
    end.
Proof. reflexivity. Qed.

Lemma store_then {B} (r : reg) (v : Z) (k : unit -> M HW B) (h : HW) :
  bind (store r v) k h
  = prepend [Store r (wrap32 v)] (k tt (dev_store r (wrap32 v) h)).
Proof. reflexivity. Qed.

Lemma load_then {B} (r : reg) (k : Z -> M HW B) (h : HW) :
  bind (load r) k h
  = prepend [Load r (wrap32 (fst (dev_load r h)))]
      (k (wrap32 (fst (dev_load r h))) (snd (dev_load r h))).
Proof. reflexivity. Qed.

Lemma call_then {B} (m : macro) (k : unit -> M HW B) (h : HW) :
  bind (call m) k h
  = match dev_call m h with
    | Some h' => prepend [Call m] (k tt h')
    | None => mkRun Hang h [Call m]
    end.
Proof.
  unfold bind, call. destruct (dev_call m h); reflexivity.
Qed.

Lemma clear_bits_run (r : reg) (v : Z) (h : HW) :
  clear_bits r v h
  = mkRun (Done tt)
      (dev_store r (wrap32 (Z.land (wrap32 (fst (dev_load r h))) (Z.lnot v))) (snd (dev_load r h)))
      [Load r (wrap32 (fst (dev_load r h))); Store r (wrap32 (Z.land (wrap32 (fst (dev_load r h))) (Z.lnot v)))].
Proof. reflexivity. Qed.

Lemma set_bits_then {B} (r : reg) (v : Z) (k : unit -> M HW B) (h : HW) :
  bind (set_bits r v) k h
  = prepend [Load r (wrap32 (fst (dev_load r h))); Store r (wrap32 (Z.lor (wrap32 (fst (dev_load r h))) v))]
      (k tt (dev_store r (wrap32 (Z.lor (wrap32 (fst (dev_load r h))) v)) (snd (dev_load r h)))).
Proof. reflexivity. Qed.

Lemma clear_bits_then {B} (r : reg) (v : Z) (k : unit -> M HW B) (h : HW) :
  bind (clear_bits r v) k h
  = prepend [Load r (wrap32 (fst (dev_load r h))); Store r (wrap32 (Z.land (wrap32 (fst (dev_load r h))) (Z.lnot v)))]
      (k tt (dev_store r (wrap32 (Z.land (wrap32 (fst (dev_load r h))) (Z.lnot v)))
               (snd (dev_load r h)))).
Proof. reflexivity. Qed.

Lemma bind_assoc {A B C} (m : M HW A) (f : A -> M HW B)
      (g : B -> M HW C) (h : HW) :
  bind (bind m f) g h = bind m (fun a => bind (f a) g) h.
Proof.
  unfold bind, prepend. destruct (out (m h)) as [a|]; cbn [out dev evs];
    [|reflexivity].
  destruct (out (f a (dev (m h)))); cbn [out dev evs];
    rewrite ?app_assoc; reflexivity.
Qed.

Lemma evs_bind {A B} (m : M HW A) (k : A -> M HW B) (h : HW) :
  evs (bind m k h)
  = evs (m h) ++ match out (m h) with
                 | Done a => evs (k a (dev (m h)))
                 | Hang => []
                 end.
Proof.
  unfold bind. destruct (out (m h)); simpl; auto using app_nil_r.
Qed.

Lemma out_bind {A B} (m : M HW A) (k : A -> M HW B) (h : HW) :
  out (bind m k h)
  = match out (m h) with
    | Done a => out (k a (dev (m h)))
    | Hang => Hang
    end.
Proof. unfold bind. destruct (out (m h)); reflexivity. Qed.

Lemma dev_bind {A B} (m : M HW A) (k : A -> M HW B) (h : HW) :
  dev (bind m k h)
  = match out (m h) with
    | Done a => dev (k a (dev (m h)))
    | Hang => dev (m h)
    end.
Proof. unfold bind. destruct (out (m h)); reflexivity. Qed.

(** What a polling loop leaves in the log: reads of [r] only, every
    one but the last finding the loop condition true. *)
Lemma poll_while_run (fuel : nat) (r : reg) (test : Z -> bool) (h : HW) :
  exists vs,
    evs (poll_while fuel r test h) = map (Load r) vs /\
    match out (poll_while fuel r test h) with
    | Done _ => exists ws v, vs = ws ++ [v] /\
                             Forall (fun x => test x = true) ws /\
                             test v = false
    | Hang => Forall (fun x => test x = true) vs /\ length vs = fuel
    end.
Proof.
  revert h. induction fuel as [|k IH]; intros h.
  - exists []. simpl. auto.
  - unfold poll_while in *. simpl while_.
    set (v := wrap32 (fst (dev_load r h))).
    rewrite out_bind, evs_bind. simpl.
    fold v. destruct (test v) eqn:T.
    + destruct (IH (snd (dev_load r h))) as (vs & E & O).
      rewrite out_bind, evs_bind. simpl.
      exists (v :: vs). rewrite E. split; [reflexivity|].
      destruct (out (while_ k _ _ _)).
      * destruct O as (ws & u & -> & F & T').
        exists (v :: ws), u. auto.
      * destruct O. split; [auto | simpl; congruence].
    + exists [v]. split; [reflexivity|]. exists [], v. auto.
Qed.

Lemma poll_while_Done fuel r test h u :
  out (poll_while fuel r test h) = Done u ->
  exists ws v, evs (poll_while fuel r test h) = map (Load r) (ws ++ [v]) /\
               Forall (fun x => test x = true) ws /\ test v = false.
Proof.
  intros E. destruct (poll_while_run fuel r test h) as (vs & -> & O).
  rewrite E in O. destruct O as (ws & v & -> & F & T). eauto.
Qed.

Lemma poll_while_log fuel r test h u :
  out (poll_while fuel r test h) = Done u ->
  poll_log r test (evs (poll_while fuel r test h)).
Proof. apply poll_while_Done. Qed.
End RunLemmas.

(** ** Sleep and standby *)

(** Symbolic execution of straight-line register code. *)
Ltac exec :=
  repeat (first [ rewrite set_bits_then | rewrite clear_bits_then
                | rewrite store_then | rewrite load_then
                | rewrite call_then ];
          cbv beta).

Ltac log_simpl :=
  cbn [ret prepend evs out dev app existsb precedesb stores_to written
       is_call is_load is_store store_with store_without load_flag load_field
       reg_eqb macro_eqb andb orb negb].

Section Sleep.
Context {HW : Type} `{Device HW} `{SystemH}.

(** Both standby functions are the same code around their wait. *)
Lemma standby_brackets (m : macro) (h : HW) :
  wrap32 PFIC_SLEEPDEEP <> 0 ->
  brackets_wait (wrap32 PFIC_SLEEPDEEP) m
    ((set_bits PWR_CTLR PWR_CTLR_PDDS ;;
      set_bits PFIC_SCTLR PFIC_SLEEPDEEP ;;
      call m ;;
      clear_bits PFIC_SCTLR PFIC_SLEEPDEEP) h).
Proof.
  intros NZ.
  assert (M0 : macro_eqb m m = true) by (now destruct m).
  assert (NZ' : (wrap32 PFIC_SLEEPDEEP =? 0) = false)
    by (now apply Z.eqb_neq).
  exec. unfold brackets_wait.
  destruct (dev_call m _) as [h'|]; [rewrite clear_bits_run|];
    log_simpl;
    rewrite ?M0, ?set_then_set, ?clear_then_clear, ?Z.eqb_refl, ?NZ';
    log_simpl.
  - split; [reflexivity|]. split; [reflexivity|]. split; [reflexivity|].
    split; [discriminate|].
    intros _. eexists [_; _; _; _; _; _], _. split; [reflexivity|].
    apply clear_then_clear.
  - split; [reflexivity|]. split; [reflexivity|]. split; [reflexivity|].
    split; [reflexivity | discriminate].
Qed.

(** C8.  In [STDBY_WFI_now] and in [STDBY_WFE_now] the SLEEPDEEP flag
    is written set before the wait is entered, no write with the flag
    clear precedes the wait, a wait that never ends leaves the flag
    set, and when the function returns its last action is the write
    that clears the flag. *)
Theorem deep_sleep_flag_brackets_the_wait (h : HW) :
  wrap32 PFIC_SLEEPDEEP <> 0 ->
  brackets_wait (wrap32 PFIC_SLEEPDEEP) m_WFI (STDBY_WFI_now h) /\
  brackets_wait (wrap32 PFIC_SLEEPDEEP) m_WFE (STDBY_WFE_now h).
Proof.
  intros NZ. split; apply standby_brackets; assumption.
Qed.

(** Normal sleep, whatever the wait: one write, to the power control
    register, of its old value without PDDS. *)
Lemma sleep_frame (m : macro) (h : HW) (peek : HW -> Z) :
  Latched PWR_CTLR peek ->
  let r := (clear_bits PWR_CTLR PWR_CTLR_PDDS ;; call m) h in
  exists new,
    written (evs r) = [PWR_CTLR] /\
    stores_to PWR_CTLR (evs r) = [new] /\
    clears_only PWR_CTLR_PDDS (wrap32 (peek h)) new /\
    peek (dev r) = new.
Proof.
  intros L r. subst r.
  exists (wrap32 (Z.land (wrap32 (peek h)) (Z.lnot PWR_CTLR_PDDS))).
  assert (C : clears_only PWR_CTLR_PDDS (wrap32 (peek h))
                (wrap32 (Z.land (wrap32 (peek h))
                                (Z.lnot PWR_CTLR_PDDS))))
    by (intros i Hi; now apply clear_bit).
  rewrite clear_bits_then. cbv beta. unfold call. rewrite latch_read.
  destruct (dev_call m _) as [h'|] eqn:E; log_simpl;
    (split; [reflexivity|]); (split; [reflexivity|]);
    (split; [exact C|]).
  - rewrite (latch_call _ _ _ E). apply latch_store.
  - apply latch_store.
Qed.

(** Standby, whatever the wait: one write to the power control
    register, of its old value with PDDS, and the register still
    holds it at the end. *)
Lemma standby_frame (m : macro) (h : HW) (peek : HW -> Z) :
  Latched PWR_CTLR peek ->
  let r := (set_bits PWR_CTLR PWR_CTLR_PDDS ;;
            set_bits PFIC_SCTLR PFIC_SLEEPDEEP ;;
            call m ;;
            clear_bits PFIC_SCTLR PFIC_SLEEPDEEP) h in
  let new := wrap32 (Z.lor (wrap32 (peek h)) PWR_CTLR_PDDS) in
  stores_to PWR_CTLR (evs r) = [new] /\
  Z.land new (wrap32 PWR_CTLR_PDDS) = wrap32 PWR_CTLR_PDDS /\
  peek (dev r) = new /\
  (out r = Done tt ->
   written (evs r) = [PWR_CTLR; PFIC_SCTLR; PFIC_SCTLR]).
Proof.
  intros L r new. subst r new. exec. rewrite latch_read.
  destruct (dev_call m _) as [h'|] eqn:E; [rewrite clear_bits_run|];
    log_simpl;
    (split; [reflexivity|]); (split; [apply set_then_set|]);
    (split; [|intros; try discriminate; reflexivity]).
  - rewrite latch_other, latch_load by reflexivity.
    rewrite (latch_call _ _ _ E).
    rewrite latch_other, latch_load by reflexivity.
    apply latch_store.
  - rewrite latch_other, latch_load by reflexivity.
    apply latch_store.
Qed.

(** C10.  On a device whose power control register is plain storage:
    [SLEEP_WFI_now] and [SLEEP_WFE_now] write that register only, once,
    with every bit as it was except PDDS, which is cleared;
    [STDBY_WFI_now] and [STDBY_WFE_now] write it once with PDDS set and
    never again, so PDDS is still set when they return, while the two
    later writes go to the SLEEPDEEP register. *)
Theorem sleep_clears_only_PDDS_and_standby_leaves_it_set
    (h : HW) (peek : HW -> Z) :
  Latched PWR_CTLR peek ->
  (forall r, r = SLEEP_WFI_now h \/ r = SLEEP_WFE_now h ->
     exists new,
       written (evs r) = [PWR_CTLR] /\
       stores_to PWR_CTLR (evs r) = [new] /\
       clears_only PWR_CTLR_PDDS (wrap32 (peek h)) new /\
       peek (dev r) = new) /\
  (forall r, r = STDBY_WFI_now h \/ r = STDBY_WFE_now h ->
     let new := wrap32 (Z.lor (wrap32 (peek h)) PWR_CTLR_PDDS) in
     stores_to PWR_CTLR (evs r) = [new] /\
     Z.land new (wrap32 PWR_CTLR_PDDS) = wrap32 PWR_CTLR_PDDS /\
     peek (dev r) = new /\
     (out r = Done tt ->
      written (evs r) = [PWR_CTLR; PFIC_SCTLR; PFIC_SCTLR])).
Proof.
  intros L. split.
  - intros r [-> | ->]; apply sleep_frame; assumption.
  - intros r [-> | ->]; apply standby_frame; assumption.
Qed.
End Sleep.

(** ** Logs of sequences *)

Lemma stores_to_app (r : reg) (l1 l2 : list event) :
  stores_to r (l1 ++ l2) = stores_to r l1 ++ stores_to r l2.
Proof.
  induction l1 as [|[r' v|r' v|m] l1 IH]; simpl; auto.
  destruct (reg_eqb r r'); simpl; congruence.
Qed.

Lemma stores_to_loads (r r' : reg) (vs : list Z) :
  stores_to r (map (Load r') vs) = [].
Proof. induction vs; simpl; auto. Qed.

(** Cutting a log after the first, or the second, event that follows a
    polling loop. *)
Lemma cut_after_1 {T} (A p B rest : list T) (x1 x2 : T) :
  A ++ p ++ (x1 :: x2 :: B) ++ rest
  = (A ++ p ++ [x1]) ++ x2 :: (B ++ rest).
Proof. simpl. now rewrite <- !app_assoc. Qed.

Lemma cut_after_2 {T} (A p B rest : list T) (x1 x2 x3 : T) :
  A ++ p ++ (x1 :: x2 :: x3 :: B) ++ rest
  = (A ++ p ++ [x1; x2]) ++ x3 :: (B ++ rest).
Proof. simpl. now rewrite <- !app_assoc. Qed.

(** ** Independent watchdog *)

Section Watchdog.
Context {HW : Type} `{Device HW} `{SystemH}.

(** The tail both watchdog functions share: wait for the reload
    register, write it, load the counter, and what follows. *)
Lemma reload_tail (fuel : nat) (v : Z) (k : M HW unit) (h : HW) :
  (forall h', out (k h') = Done tt /\ stores_to IWDG_RLDR (evs (k h')) = []) ->
  let r := (poll_while fuel IWDG_STATR
              (fun x => negb (Z.land x IWDG_RVU =? 0)) ;;
            store IWDG_RLDR v ;; k) h in
  out r = out (poll_while fuel IWDG_STATR
                 (fun x => negb (Z.land x IWDG_RVU =? 0)) h) /\
  reload_written (wrap32 v) r.
Proof.
  intros K r. subst r. unfold reload_written. rewrite bind_run.
  destruct (poll_while_run fuel IWDG_STATR
              (fun x => negb (Z.land x IWDG_RVU =? 0)) h) as (vs & E & _).
  destruct (out (poll_while _ _ _ h)) as [[]|].
  - rewrite store_then. cbv beta. log_simpl. rewrite E.
    destruct (K (dev_store IWDG_RLDR (wrap32 v)
                   (dev (poll_while fuel IWDG_STATR
                           (fun x => negb (Z.land x IWDG_RVU =? 0)) h))))
      as [-> S].
    split; [reflexivity|].
    rewrite stores_to_app, stores_to_loads. log_simpl. now rewrite S.
  - log_simpl. rewrite E, stores_to_loads. auto.
Qed.

Lemma IWDG_reload_run (fuel : nat) (ms : Z) (h : HW) :
  out (IWDG_reload fuel ms h)
  = out (poll_while fuel IWDG_STATR
           (fun x => negb (Z.land x IWDG_RVU =? 0))
           (dev_store IWDG_CTLR (wrap32 0x5555) h)) /\
  reload_written (wrap32 (Z.shiftr ms 1)) (IWDG_reload fuel ms h).
Proof.
  unfold IWDG_reload, reload_written. rewrite store_then. cbv beta.
  log_simpl.
  apply (reload_tail fuel (Z.shiftr ms 1) (store IWDG_CTLR 0xAAAA)).
  intros h'. split; reflexivity.
Qed.

Lemma IWDG_start_run (fuel : nat) (ms : Z) (h : HW) :
  (forall ms', out (IWDG_start fuel ms h) = out (IWDG_start fuel ms' h)) /\
  reload_written (wrap32 (Z.shiftr ms 1)) (IWDG_start fuel ms h).
Proof.
  assert (K : forall h' : HW,
             out ((store IWDG_CTLR 0xAAAA ;; store IWDG_CTLR 0xCCCC) h')
             = Done tt /\
             stores_to IWDG_RLDR
               (evs ((store IWDG_CTLR 0xAAAA ;; store IWDG_CTLR 0xCCCC) h'))
             = []) by (intros h'; split; reflexivity).
  unfold IWDG_start, reload_written, LSI_enable.
  setoid_rewrite call_then.
  destruct (dev_call m_LSI_enable h) as [h1|]; [|split; reflexivity].
  setoid_rewrite store_then. cbv beta.
  setoid_rewrite bind_run.
  destruct (poll_while_run fuel IWDG_STATR
              (fun x => negb (Z.land x IWDG_PVU =? 0))
              (dev_store IWDG_CTLR (wrap32 0x5555) h1)) as (vs & E & _).
  destruct (out (poll_while _ _ _ (dev_store IWDG_CTLR _ h1))) as [[]|].
  - setoid_rewrite store_then. cbv beta. log_simpl.
    rewrite E, ?stores_to_app, stores_to_loads. log_simpl.
    set (h3 := dev_store IWDG_PSCR _ _).
    split.
    + intros ms'.
      destruct (reload_tail fuel (Z.shiftr ms 1) _ h3 K) as [-> _].
      destruct (reload_tail fuel (Z.shiftr ms' 1) _ h3 K) as [-> _].
      reflexivity.
    + apply (reload_tail fuel (Z.shiftr ms 1) _ h3 K).
  - log_simpl. rewrite E, ?stores_to_app, stores_to_loads. auto.
Qed.

Lemma half (ms : Z) : 0 <= ms < 2 ^ 16 -> wrap32 (Z.shiftr ms 1) = ms / 2.
Proof.
  intros R. rewrite Z.shiftr_div_pow2 by lia. change (2 ^ 1) with 2.
  apply wrap32_small.
  assert (0 <= ms / 2 <= ms)
    by (split; [apply Z.div_pos | apply Z.div_le_upper_bound]; lia).
  lia.
Qed.

(** A poll of a busy flag ends when the device shows the flag clear
    within the reads allowed. *)
Lemma poll_ends (n fuel : nat) (r : reg) (mask : Z) (h : HW) :
  clears_within r mask n h = true -> (n <= fuel)%nat ->
  out (poll_while fuel r (fun x => negb (Z.land x mask =? 0)) h) = Done tt.
Proof.
  revert fuel h. induction n as [|k IH]; intros fuel h C L; [discriminate|].
  destruct fuel as [|f]; [lia|].
  unfold poll_while in *. cbn [while_].
  rewrite bind_run, load_then. cbv beta. log_simpl.
  cbn [clears_within] in C.
  destruct (Z.land (wrap32 (fst (dev_load r h))) mask =? 0); cbn [negb];
    cbv iota.
  - reflexivity.
  - rewrite bind_run. log_simpl. apply IH; [exact C | lia].
Qed.

Lemma IWDG_reload_returns (n fuel : nat) (ms : Z) (h : HW) :
  Settling IWDG_RVU n -> (n <= fuel)%nat ->
  out (IWDG_reload fuel ms h) = Done tt.
Proof.
  intros S L. destruct (IWDG_reload_run fuel ms h) as [-> _].
  apply (poll_ends n); [apply settles | exact L].
Qed.

Lemma IWDG_start_returns (n fuel : nat) (ms : Z) (h h1 : HW) :
  Settling IWDG_PVU n -> Settling IWDG_RVU n -> (n <= fuel)%nat ->
  dev_call m_LSI_enable h = Some h1 ->
  out (IWDG_start fuel ms h) = Done tt.
Proof.
  intros SP SR L E. unfold IWDG_start, LSI_enable.
  rewrite call_then, E. exec. log_simpl.
  rewrite bind_run, (poll_ends n) by (apply settles || exact L).
  exec. log_simpl.
  rewrite bind_run, (poll_ends n) by (apply settles || exact L).
  exec. log_simpl. reflexivity.
Qed.

(** What the reload register holds after a watchdog function that
    returned, when it keeps its reload field only. *)
Lemma IWDG_reload_field (fuel : nat) (ms : Z) (h : HW) (peek : HW -> Z) :
  ReloadField peek ->
  out (IWDG_reload fuel ms h) = Done tt ->
  peek (dev (IWDG_reload fuel ms h))
  = Z.land (wrap32 (Z.shiftr ms 1)) IWDG_RLDR_MAX.
Proof.
  intros F. unfold IWDG_reload. exec. log_simpl. rewrite bind_run.
  destruct (out (poll_while _ _ _ _)) as [[]|];
    [|log_simpl; intros D; discriminate D].
  exec. log_simpl. intros _. unfold store. cbn [dev].
  rewrite field_other by reflexivity. apply field_store.
Qed.

Lemma IWDG_start_field (fuel : nat) (ms : Z) (h : HW) (peek : HW -> Z) :
  ReloadField peek ->
  out (IWDG_start fuel ms h) = Done tt ->
  peek (dev (IWDG_start fuel ms h))
  = Z.land (wrap32 (Z.shiftr ms 1)) IWDG_RLDR_MAX.
Proof.
  intros F. unfold IWDG_start, LSI_enable. rewrite call_then.
  destruct (dev_call m_LSI_enable h) as [h1|];
    [|intros D; discriminate D].
  exec. log_simpl. rewrite bind_run.
  destruct (out (poll_while _ _ _ _)) as [[]|];
    [|log_simpl; intros D; discriminate D].
  exec. log_simpl. rewrite bind_run.
  destruct (out (poll_while _ _ _ _)) as [[]|];
    [|log_simpl; intros D; discriminate D].
  exec. log_simpl. intros _. unfold store. cbn [dev].
  rewrite !field_other by reflexivity. apply field_store.
Qed.

Lemma written_when_returned (v : Z) (r : run HW unit) :
  reload_written v r -> out r = Done tt ->
  stores_to IWDG_RLDR (evs r) = [v].
Proof. unfold reload_written. now intros -> ->. Qed.

(** C9.  On a device where [LSI_enable()] comes back and the watchdog's
    busy flags clear within the reads allowed, for every period [ms] of
    type [uint16_t]: [IWDG_start] and [IWDG_reload] return, and have
    written the reload register exactly once, with [ms / 2] rounded
    down; so [2k+1] is treated exactly as [2k], and 0 and 1 both write
    0. *)
Theorem watchdog_writes_half_the_period
    (fuel n : nat) (ms : Z) (h h1 : HW) :
  0 <= ms < 2 ^ 16 ->
  Settling IWDG_PVU n -> Settling IWDG_RVU n -> (n <= fuel)%nat ->
  dev_call m_LSI_enable h = Some h1 ->
  (out (IWDG_start fuel ms h) = Done tt /\
   stores_to IWDG_RLDR (evs (IWDG_start fuel ms h)) = [ms / 2]) /\
  (out (IWDG_reload fuel ms h) = Done tt /\
   stores_to IWDG_RLDR (evs (IWDG_reload fuel ms h)) = [ms / 2]) /\
  IWDG_start fuel (2 * (ms / 2) + 1) h = IWDG_start fuel (2 * (ms / 2)) h /\
  IWDG_reload fuel (2 * (ms / 2) + 1) h
  = IWDG_reload fuel (2 * (ms / 2)) h /\
  stores_to IWDG_RLDR (evs (IWDG_start fuel 0 h)) = [0] /\
  stores_to IWDG_RLDR (evs (IWDG_start fuel 1 h)) = [0] /\
  stores_to IWDG_RLDR (evs (IWDG_reload fuel 0 h)) = [0] /\
  stores_to IWDG_RLDR (evs (IWDG_reload fuel 1 h)) = [0].
Proof.
  intros R SP SR L E.
  assert (Ds : forall x, out (IWDG_start fuel x h) = Done tt)
    by (intros x; now apply (IWDG_start_returns n fuel x h h1)).
  assert (Dr : forall x, out (IWDG_reload fuel x h) = Done tt)
    by (intros x; now apply (IWDG_reload_returns n)).
  assert (Q : Z.shiftr (2 * (ms / 2) + 1) 1 = Z.shiftr (2 * (ms / 2)) 1).
  { rewrite !Z.shiftr_div_pow2 by lia. change (2 ^ 1) with 2.
    rewrite (Z.mul_comm 2), Z.div_add_l, Z.div_mul by lia.
    change (1 / 2) with 0. lia. }
  split; [split; [apply Ds|]|].
  { rewrite <- (half ms R).
    apply written_when_returned; [apply IWDG_start_run | apply Ds]. }
  split; [split; [apply Dr|]|].
  { rewrite <- (half ms R).
    apply written_when_returned; [apply IWDG_reload_run | apply Dr]. }
  split; [unfold IWDG_start; now rewrite Q|].
  split; [unfold IWDG_reload; now rewrite Q|].
  split; [apply written_when_returned;
          [apply (IWDG_start_run fuel 0) | apply Ds]|].
  split; [apply written_when_returned;
          [apply (IWDG_start_run fuel 1) | apply Ds]|].
  split; apply written_when_returned;
    first [apply (IWDG_reload_run fuel 0) | apply (IWDG_reload_run fuel 1)
          | apply Dr].
Qed.

Lemma field_of_period (ms : Z) :
  0 <= ms <= 8191 -> Z.land (wrap32 (Z.shiftr ms 1)) IWDG_RLDR_MAX = ms / 2.
Proof.
  intros R. rewrite half by lia.
  change IWDG_RLDR_MAX with (Z.ones 12).
  rewrite Z.land_ones by lia. apply Z.mod_small.
  assert (0 <= ms / 2) by (apply Z.div_pos; lia).
  assert (ms / 2 < 4096) by (apply Z.div_lt_upper_bound; lia).
  change (2 ^ 12) with 4096. lia.
Qed.

(** C7.  On a device where [LSI_enable()] comes back, the busy flags
    clear within the reads allowed and the reload register keeps its
    12-bit reload field: [IWDG_start] and [IWDG_reload] return for every
    [ms], in range or not (no period is rejected); for every [ms] up to
    8191 the reload register then holds [ms / 2], and at 8191 the value
    written is 4095, the largest the field holds; at 8192 the value
    written is 4096, unchanged by the code, and the reload register
    then holds 0, exactly what it holds after a period of 0. *)
Theorem watchdog_period_boundary
    (fuel n : nat) (h h1 : HW) (peek : HW -> Z) :
  Settling IWDG_PVU n -> Settling IWDG_RVU n -> (n <= fuel)%nat ->
  dev_call m_LSI_enable h = Some h1 ->
  ReloadField peek ->
  (forall ms, out (IWDG_start fuel ms h) = Done tt /\
              out (IWDG_reload fuel ms h) = Done tt) /\
  (forall ms, 0 <= ms <= 8191 ->
              peek (dev (IWDG_start fuel ms h)) = ms / 2 /\
              peek (dev (IWDG_reload fuel ms h)) = ms / 2) /\
  (stores_to IWDG_RLDR (evs (IWDG_start fuel 8191 h)) = [IWDG_RLDR_MAX] /\
   stores_to IWDG_RLDR (evs (IWDG_reload fuel 8191 h)) = [IWDG_RLDR_MAX]) /\
  (stores_to IWDG_RLDR (evs (IWDG_start fuel 8192 h)) = [4096] /\
   stores_to IWDG_RLDR (evs (IWDG_reload fuel 8192 h)) = [4096] /\
   peek (dev (IWDG_start fuel 8192 h)) = 0 /\
   peek (dev (IWDG_reload fuel 8192 h)) = 0 /\
   peek (dev (IWDG_start fuel 0 h)) = 0 /\
   peek (dev (IWDG_reload fuel 0 h)) = 0).
Proof.
  intros SP SR L E F.
  assert (Ds : forall x, out (IWDG_start fuel x h) = Done tt)
    by (intros x; now apply (IWDG_start_returns n fuel x h h1)).
  assert (Dr : forall x, out (IWDG_reload fuel x h) = Done tt)
    by (intros x; now apply (IWDG_reload_returns n)).
  split; [intros ms; split; [apply Ds | apply Dr]|].
  split.
  { intros ms R. split.
    - rewrite (IWDG_start_field _ _ _ peek F (Ds ms)).
      now apply field_of_period.
    - rewrite (IWDG_reload_field _ _ _ peek F (Dr ms)).
      now apply field_of_period. }
  split.
  { split; apply written_when_returned;
      first [apply (IWDG_start_run fuel 8191)
            | apply (IWDG_reload_run fuel 8191) | apply Ds | apply Dr]. }
  split; [apply written_when_returned;
          [apply (IWDG_start_run fuel 8192) | apply Ds]|].
  split; [apply written_when_returned;
          [apply (IWDG_reload_run fuel 8192) | apply Dr]|].
  split; [now rewrite (IWDG_start_field _ _ _ peek F (Ds 8192))|].
  split; [now rewrite (IWDG_reload_field _ _ _ peek F (Dr 8192))|].
  split; [now rewrite (IWDG_start_field _ _ _ peek F (Ds 0))
         | now rewrite (IWDG_reload_field _ _ _ peek F (Dr 0))].
Qed.
End Watchdog.

(** ** Delay *)

Lemma int32_of_negative (d : Z) :
  - 2 ^ 31 <= d < 0 -> int32_t (wrap32 d) = d.
Proof.
  intros R. unfold int32_t. rewrite wrap32_idem.
  assert (E : wrap32 d = d + 2 ^ 32).
  { unfold wrap32. symmetry. apply (Z.mod_unique d (2 ^ 32) (-1)); lia. }
  rewrite E. destruct (d + 2 ^ 32 <? 2 ^ 31) eqn:L; [|lia].
  apply Z.ltb_lt in L. lia.
Qed.

(** The loop test of [DLY_ticks], on true tick counts: with the target
    at most 2^31 ticks ahead of the first sample [c0], a later sample
    [c] ends the wait only at or after the target. *)
Lemma signed_difference_test (c0 c n : Z) :
  0 <= n <= 2 ^ 31 -> c0 <= c ->
  (int32_t (wrap32 (wrap32 c - wrap32 (wrap32 c0 + n))) <? 0) = false ->
  c0 + n <= c.
Proof.
  intros Rn Le T.
  assert (E : wrap32 (wrap32 c - wrap32 (wrap32 c0 + n))
              = wrap32 (c - c0 - n)).
  { unfold wrap32.
    pose proof (Z.mod_eq c (2 ^ 32) ltac:(lia)) as Ec.
    pose proof (Z.mod_eq c0 (2 ^ 32) ltac:(lia)) as Ec0.
    pose proof (Z.mod_eq (c0 mod 2 ^ 32 + n) (2 ^ 32) ltac:(lia)) as Et.
    replace (c mod 2 ^ 32 - (c0 mod 2 ^ 32 + n) mod 2 ^ 32)
      with (c - c0 - n
            + (c0 / 2 ^ 32 + (c0 mod 2 ^ 32 + n) / 2 ^ 32 - c / 2 ^ 32)
              * 2 ^ 32) by lia.
    apply Z_mod_plus_full. }
  rewrite E in T. apply Z.ltb_ge in T.
  destruct (Z_lt_le_dec (c - c0 - n) 0) as [Neg|]; [|lia].
  rewrite int32_of_negative in T by lia. lia.
Qed.

Section Delay.
Context {HW : Type} `{Device HW} (count : HW -> Z) `{!FreeRunning count}.

(** A polling loop on SysTick never sees time go back, and when it
    ends, it ends on a sample taken during the loop. *)
Lemma poll_count (fuel : nat) (test : Z -> bool) (h : HW) :
  count h <= count (dev (poll_while fuel STK_CNT test h)) /\
  (forall u, out (poll_while fuel STK_CNT test h) = Done u ->
             exists c,
               count h <= c <= count (dev (poll_while fuel STK_CNT test h))
               /\ test (wrap32 c) = false).
Proof.
  revert h. induction fuel as [|k IH]; intros h.
  - simpl. split; [lia | discriminate].
  - unfold poll_while in *. cbn [while_].
    rewrite bind_run, load_then. cbv beta. log_simpl.
    destruct (count_sample h) as (c & Rc & Ec). rewrite Ec.
    destruct (test (wrap32 c)) eqn:T.
    + cbv iota. rewrite bind_run. cbn [ret out dev prepend].
      destruct (IH (snd (dev_load STK_CNT h))) as [Mono Fin].
      split; [lia|].
      intros u E. destruct (Fin u E) as (c' & Rc' & T').
      exists c'. split; [lia | assumption].
    + cbv iota. cbn [ret out dev prepend]. split; [lia|].
      intros u _. exists c. auto.
Qed.

(** C5, as the code has it.  For [n] up to 2^31, [DLY_ticks n] returns
    only once SysTick has advanced by at least [n] ticks since the
    call began; [count] is the unbounded tick count, of which the code
    sees the low 32 bits only, so the statement covers every wrap of
    the counter. *)
Theorem delay_waits_at_least_n (fuel : nat) (n : Z) (h : HW) :
  0 <= n <= 2 ^ 31 ->
  out (DLY_ticks fuel n h) = Done tt ->
  count h + n <= count (dev (DLY_ticks fuel n h)).
Proof.
  intros Rn. unfold DLY_ticks. rewrite load_then. cbv beta zeta.
  log_simpl.
  destruct (count_sample h) as (c0 & R0 & E0). rewrite E0.
  intros D.
  destruct (poll_count fuel
              (fun now => int32_t (wrap32 (now - wrap32 (wrap32 c0 + n)))
                          <? 0) (snd (dev_load STK_CNT h))) as [_ Fin].
  destruct (Fin tt D) as (c & Rc & T).
  apply signed_difference_test in T; lia.
Qed.
End Delay.

(** ** Start-up: clearing and loading data memory *)

Section Reset.
Context {HW : Type} `{Device HW} `{SystemH} `{LinkerScript}.

Lemma clear_bss_finishes (fuel : nat) (dst : Z) (m : memory) :
  0 <= dst -> _ebss <= 2 ^ 32 - 4 ->
  Z.of_nat fuel > Z.max 0 (_ebss - dst) ->
  exists m', clear_bss fuel dst m = Some m'.
Proof.
  revert dst m. induction fuel as [|k IH]; intros dst m P B F; [lia|].
  simpl. destruct (dst <? _ebss) eqn:L; [|eauto].
  apply Z.ltb_lt in L. rewrite wrap32_small by lia.
  apply IH; lia.
Qed.

Lemma next_word (a dst : Z) :
  dst < a -> (a - dst) mod 4 = 0 ->
  dst + 4 <= a /\ (a - (dst + 4)) mod 4 = 0.
Proof.
  intros L A.
  pose proof (Z.div_mod (a - dst) 4 ltac:(lia)).
  split; [lia|].
  replace (a - (dst + 4)) with (a - dst + (-1) * 4) by lia.
  now rewrite Z.mod_add by lia.
Qed.

Lemma clear_bss_spec (fuel : nat) (dst : Z) (m m' : memory) :
  0 <= dst -> _ebss <= 2 ^ 32 - 4 ->
  clear_bss fuel dst m = Some m' ->
  (forall a, dst <= a < _ebss -> (a - dst) mod 4 = 0 -> m' a = 0) /\
  (forall a, ~ dst <= a < _ebss -> m' a = m a).
Proof.
  revert dst m. induction fuel as [|k IH]; intros dst m P B E;
    [discriminate|].
  simpl in E. destruct (dst <? _ebss) eqn:L.
  - apply Z.ltb_lt in L. rewrite wrap32_small in E by lia.
    destruct (IH (dst + 4) (poke m dst 0) ltac:(lia) B E) as [Z0 Fr].
    split.
    + intros a R A. destruct (Z.eq_dec a dst) as [->|N].
      * rewrite Fr by lia. unfold poke. now rewrite Z.eqb_refl.
      * destruct (next_word a dst ltac:(lia) A). apply Z0; [lia|assumption].
    + intros a R. rewrite Fr by lia. unfold poke.
      destruct (a =? dst) eqn:Q; [apply Z.eqb_eq in Q; lia | reflexivity].
  - apply Z.ltb_ge in L. injection E as <-. split; [lia | reflexivity].
Qed.

Lemma copy_data_finishes (fuel : nat) (src dst : Z) (m : memory) :
  0 <= dst -> _edata <= 2 ^ 32 - 4 ->
  0 <= src -> src + (_edata - dst) <= 2 ^ 32 - 4 ->
  Z.of_nat fuel > Z.max 0 (_edata - dst) ->
  exists m', copy_data fuel src dst m = Some m'.
Proof.
  revert src dst m.
  induction fuel as [|k IH]; intros src dst m P B Ps Bs F; [lia|].
  simpl. destruct (dst <? _edata) eqn:L; [|eauto].
  apply Z.ltb_lt in L. rewrite !wrap32_small by lia.
  apply IH; lia.
Qed.

Lemma copy_data_spec (fuel : nat) (src dst : Z) (m m' : memory) :
  0 <= dst -> _edata <= 2 ^ 32 - 4 ->
  0 <= src -> src + (_edata - dst) <= 2 ^ 32 - 4 ->
  src + (_edata - dst) <= dst \/ _edata <= src ->
  copy_data fuel src dst m = Some m' ->
  (forall a, dst <= a < _edata -> (a - dst) mod 4 = 0 ->
             m' a = m (src + (a - dst))) /\
  (forall a, ~ dst <= a < _edata -> m' a = m a).
Proof.
  revert src dst m.
  induction fuel as [|k IH]; intros src dst m P B Ps Bs Ap E;
    [discriminate|].
  simpl in E. destruct (dst <? _edata) eqn:L.
  - apply Z.ltb_lt in L. rewrite !wrap32_small in E by lia.
    destruct (IH (src + 4) (dst + 4) (poke m dst (m src))
                ltac:(lia) B ltac:(lia) ltac:(lia) ltac:(lia) E)
      as [Cp Fr]. split.
    + intros a R A. destruct (Z.eq_dec a dst) as [->|N].
      * rewrite Fr by lia. unfold poke. rewrite Z.eqb_refl.
        f_equal. lia.
      * destruct (next_word a dst ltac:(lia) A).
        rewrite Cp by (lia || assumption).
        unfold poke.
        destruct (src + 4 + (a - (dst + 4)) =? dst) eqn:Q;
          [apply Z.eqb_eq in Q; lia | f_equal; lia].
    + intros a R. rewrite Fr by lia. unfold poke.
      destruct (a =? dst) eqn:Q; [apply Z.eqb_eq in Q; lia | reflexivity].
  - apply Z.ltb_ge in L. injection E as <-. split; [lia | reflexivity].
Qed.

(** C6.  Under the linker script's promises, both loops of
    [handle_reset] finish, and when [handle_reset] reaches the [mret]
    that enters [main], every word of the zeroed region holds 0 and
    every word of the initialised-data region holds the word of the
    load image at the same offset. *)
Theorem reset_zeroes_bss_and_loads_data
    (fuel : nat) (m : memory) (h : HW) :
  layout_ok ->
  (Z.of_nat fuel > Z.max 0 (Z.max (_ebss - _sbss) (_edata - _data_vma)) ->
   exists m1 m2, clear_bss fuel _sbss m = Some m1 /\
                 copy_data fuel _data_lma _data_vma m1 = Some m2) /\
  (forall m', out (handle_reset fuel m h) = Done m' ->
     (forall a, bss_word a -> m' a = 0) /\
     (forall a, data_word a ->
                m' a = m (_data_lma + (a - _data_vma)))).
Proof.
  intros [(As & Ae & Al & Av & Ad) (Ps & Be & Pv & Bd & Pl & Bl) BD ID IB].
  split.
  - intros F.
    destruct (clear_bss_finishes fuel _sbss m) as (m1 & E1); try lia.
    destruct (copy_data_finishes fuel _data_lma _data_vma m1)
      as (m2 & E2); try lia.
    eauto.
  - intros m'. unfold handle_reset. rewrite out_bind.
    destruct (out (call asm_startup h)) as [[]|]; [|discriminate].
    destruct (clear_bss fuel _sbss m) as [m1|] eqn:E1; [|discriminate].
    destruct (copy_data fuel _data_lma _data_vma m1) as [m2|] eqn:E2;
      [|discriminate].
    rewrite out_bind. destruct (out (SYS_init _)) as [[]|]; [|discriminate].
    rewrite out_bind. destruct (out (call asm_mret_main _)) as [[]|];
      [|discriminate].
    cbn [ret out]. intros [= <-].
    destruct (clear_bss_spec _ _ _ _ Ps Be E1) as [Z0 Fr1].
    destruct (copy_data_spec _ _ _ _ _ Pv Bd Pl Bl ID E2) as [Cp Fr2].
    split.
    + intros a [R A]. rewrite Fr2 by lia. apply Z0; [lia|].
      rewrite Zminus_mod, A, As. reflexivity.
    + intros a [R A]. rewrite Cp; [| lia | now rewrite Zminus_mod, A, Av].
      apply Fr1. lia.
Qed.
End Reset.

(** ** System clock *)

Lemma poll_log_quiet (r : reg) (t : Z -> bool) (p : list event) :
  poll_log r t p ->
  (forall r', stores_to r' p = []) /\
  (forall r', existsb (is_store r') p = false) /\
  (forall r', reg_eqb r' r = false -> existsb (is_load r') p = false).
Proof.
  intros (ws & v & -> & _ & _). generalize (ws ++ [v]) as vs.
  intros vs. repeat split; intros r'.
  - apply stores_to_loads.
  - induction vs; simpl; auto.
  - intros N. induction vs; simpl; rewrite ?N; auto.
Qed.

(** A finished poll of the switch status is a confirmation, whatever
    came before it, as long as the clock configuration register is not
    touched after it. *)
Lemma poll_confirms (p post : list event) (sws want : Z) :
  poll_log RCC_CFGR0 (fun x => negb (Z.land x sws =? wrap32 want)) p ->
  existsb (is_load RCC_CFGR0) post = false ->
  existsb (is_store RCC_CFGR0) post = false ->
  0 <= want < 2 ^ 32 ->
  confirmed sws want (p ++ post).
Proof.
  intros (ws & v & -> & _ & T) L S R.
  exists (map (Load RCC_CFGR0) ws), v, post.
  split; [|split; [|split; assumption]].
  - rewrite map_app. simpl. rewrite <- !app_assoc. reflexivity.
  - apply negb_false_iff, Z.eqb_eq in T. now rewrite wrap32_small in T.
Qed.

Lemma confirmed_after (pre l : list event) (sws want : Z) :
  confirmed sws want l -> confirmed sws want (pre ++ l).
Proof.
  intros (l1 & v & l2 & -> & C). exists (pre ++ l1), v, l2.
  split; [now rewrite <- app_assoc | exact C].
Qed.

(** One polling loop in a sequence: either it is still waiting, and so
    is the sequence, or it came to its end. *)
Ltac poll_step E :=
  rewrite bind_run;
  match goal with
  | |- context [out (poll_while ?f ?r ?t ?h)] =>
      destruct (out (poll_while f r t h)) as [[]|] eqn:E;
      [ apply poll_while_log in E; cbv beta
      | log_simpl; intro; discriminate ]
  end.

Section Clock.
Context {HW : Type} `{Device HW} `{SystemH}.

(** Everything [CLK_init_HSI_PLL] does when it returns. *)
Lemma CLK_init_HSI_PLL_log (fuel : nat) (h : HW) :
  out (CLK_init_HSI_PLL fuel h) = Done tt ->
  HSI_PLL_order (evs (CLK_init_HSI_PLL fuel h)).
Proof.
  unfold CLK_init_HSI_PLL, HSI_PLL_order. exec. poll_step E1.
  rewrite bind_assoc. exec. log_simpl.
  intros E2. apply poll_while_log in E2.
  eexists _, _, _. split; [reflexivity|]. split; assumption.
Qed.

(** Everything [CLK_init_HSE] does when it returns. *)
Lemma CLK_init_HSE_log (fuel : nat) (h : HW) :
  out (CLK_init_HSE fuel h) = Done tt ->
  HSE_order (evs (CLK_init_HSE fuel h)).
Proof.
  unfold CLK_init_HSE, HSE_order.
  exec. poll_step E1. exec. poll_step E2. exec.
  log_simpl. intros _.
  eexists _, _, _, _. split; [reflexivity|]. split; assumption.
Qed.

(** Everything [CLK_init_HSE_PLL] does when it returns. *)
Lemma CLK_init_HSE_PLL_log (fuel : nat) (h : HW) :
  out (CLK_init_HSE_PLL fuel h) = Done tt ->
  HSE_PLL_order (evs (CLK_init_HSE_PLL fuel h)).
Proof.
  unfold CLK_init_HSE_PLL, HSE_PLL_order.
  exec. poll_step E0. exec. poll_step E1. exec.
  log_simpl. intros E2. apply poll_while_log in E2.
  eexists _, _, _, _, _. split; [reflexivity|]. repeat split; assumption.
Qed.

(** C4, as the code has it.  The three functions that switch the clock
    source poll the switch status until it shows the source asked for
    (0x08 for the multiplier, 0x04 for the crystal), and that read is
    their last access to the clock configuration register;
    [CLK_init_HSI] always returns after its four writes, having read
    nothing. *)
Theorem clock_switch_confirmed_where_switched (fuel : nat) (h : HW) :
  confirmed_on_return (wrap32 RCC_SWS) 0x08 (CLK_init_HSI_PLL fuel h) /\
  confirmed_on_return (wrap32 RCC_SWS) 0x04 (CLK_init_HSE fuel h) /\
  confirmed_on_return (wrap32 RCC_SWS) 0x08 (CLK_init_HSE_PLL fuel h) /\
  out (CLK_init_HSI h) = Done tt /\
  evs (CLK_init_HSI h)
  = [Store FLASH_ACTLR (wrap32 FLASH_ACTLR_LATENCY_0);
     Store RCC_INTR (wrap32 0x009F0000);
     Store RCC_CFGR0 (wrap32 CLK_DIV);
     Store RCC_CTLR (wrap32 (Z.lor RCC_HSION (Z.shiftl HSITRIM 3)))].
Proof.
  split; [|split; [|split; [|split; reflexivity]]]; intros D.
  - destruct (CLK_init_HSI_PLL_log _ _ D) as (p1 & c & p2 & -> & _ & P).
    do 3 apply confirmed_after. rewrite <- (app_nil_r p2).
    apply poll_confirms; [exact P | reflexivity | reflexivity | lia].
  - destruct (CLK_init_HSE_log _ _ D) as (a & b & p1 & p2 & -> & _ & P).
    do 3 apply confirmed_after.
    apply poll_confirms; [exact P | reflexivity | reflexivity | lia].
  - destruct (CLK_init_HSE_PLL_log _ _ D)
      as (a & b & p0 & p1 & p2 & -> & _ & _ & P).
    do 5 apply confirmed_after. rewrite <- (app_nil_r p2).
    apply poll_confirms; [exact P | reflexivity | reflexivity | lia].
Qed.

(** C3, as the code has it.  When a multiplier variant returns, its
    log is, in this order: for the crystal variant the poll of HSERDY
    to its end, and later the write that turns the multiplier on
    again; then, for both variants, the poll of PLLRDY to its end, the
    write of the source selector, and the poll of the switch status
    to 0x08.  [CLK_init_HSI_PLL] turns the multiplier on in its first
    write of the control register, on every device before any read. *)
Theorem PLL_readiness_chain (fuel : nat) (h : HW) :
  (out (CLK_init_HSI_PLL fuel h) = Done tt ->
   HSI_PLL_order (evs (CLK_init_HSI_PLL fuel h))) /\
  (out (CLK_init_HSE_PLL fuel h) = Done tt ->
   HSE_PLL_order (evs (CLK_init_HSE_PLL fuel h))) /\
  (forall rdy,
      ~ ready_before_PLL_on rdy (wrap32 RCC_PLLON)
          (evs (CLK_init_HSI_PLL fuel h))).
Proof.
  split; [apply CLK_init_HSI_PLL_log|].
  split; [apply CLK_init_HSE_PLL_log|].
  intros rdy. unfold ready_before_PLL_on, CLK_init_HSI_PLL. exec.
  log_simpl.
  replace (Z.land _ (wrap32 RCC_PLLON)) with (wrap32 RCC_PLLON)
    by (symmetry; bits).
  rewrite Z.eqb_refl. intros [=].
Qed.

(** C2, as the code has it.  [CLK_init_HSI], [CLK_init_HSI_PLL] and
    [CLK_init_HSE] write the flash wait states before any write of the
    clock control register.  [CLK_init_HSE_PLL] writes them only after
    its first write of the clock control register (which turns the
    crystal oscillator on) and, when it returns, after the selector
    was set to the crystal, but before the write that turns the
    multiplier on again and before the selector is set to the
    multiplier. *)
Theorem flash_latency_write_order (fuel : nat) (h : HW) :
  (forall on,
      latency_before_enable on (evs (CLK_init_HSI h)) /\
      latency_before_enable on (evs (CLK_init_HSI_PLL fuel h)) /\
      latency_before_enable on (evs (CLK_init_HSE fuel h))) /\
  precedesb (is_store RCC_CTLR) (is_store FLASH_ACTLR)
    (evs (CLK_init_HSE_PLL fuel h)) = true /\
  (out (CLK_init_HSE_PLL fuel h) = Done tt ->
   exists l1 l2,
     evs (CLK_init_HSE_PLL fuel h)
     = l1 ++ Store FLASH_ACTLR (wrap32 FLASH_ACTLR_LATENCY_1) :: l2 /\
     stores_to RCC_CTLR l1
     = [wrap32 (Z.lor (Z.lor RCC_HSION RCC_HSEON) RCC_PLLON)] /\
     stores_to RCC_CFGR0 l1
     = [wrap32 (Z.lor RCC_SW_HSE RCC_HPRE_DIV1)] /\
     stores_to RCC_CTLR l2
     = [wrap32 RCC_HSEON; wrap32 (Z.lor RCC_HSEON RCC_PLLON)] /\
     stores_to RCC_CFGR0 l2
     = [wrap32 (Z.lor (Z.lor RCC_SW_HSE RCC_HPRE_DIV1)
                      RCC_PLLSRC_HSE_Mul2);
        wrap32 (Z.lor (Z.lor RCC_SW_PLL RCC_HPRE_DIV1)
                      RCC_PLLSRC_HSE_Mul2)] /\
     stores_to FLASH_ACTLR (l1 ++ l2) = []).
Proof.
  split; [|split].
  - intros on. unfold latency_before_enable. split; [|split].
    + unfold CLK_init_HSI. exec. log_simpl. reflexivity.
    + unfold CLK_init_HSI_PLL. exec. log_simpl. reflexivity.
    + unfold CLK_init_HSE. exec. log_simpl. reflexivity.
  - unfold CLK_init_HSE_PLL. exec. log_simpl. reflexivity.
  - intros D. destruct (CLK_init_HSE_PLL_log _ _ D)
      as (a & b & p0 & p1 & p2 & -> & P0 & P1 & P2).
    apply poll_log_quiet in P0, P1, P2.
    destruct P0 as [S0 _], P1 as [S1 _], P2 as [S2 _].
    rewrite cut_after_1. eexists _, _. split; [reflexivity|].
    rewrite !stores_to_app, !S0, !S1, !S2. log_simpl.
    split; [reflexivity|]. split; [reflexivity|]. split; [reflexivity|].
    split; reflexivity.
Qed.

(** C1, what the code does.  When [CLK_init_HSE_PLL] returns, the
    write that turns the internal oscillator and the multiplier off
    came after the selector was written to the crystal, but no read of
    the clock configuration register came before it: the switch was
    not read back.  After that write the multiplier's source is set,
    the multiplier is turned on again and its lock is polled.  The
    sibling [CLK_init_HSE] does read the switch status back, to 0x04,
    before the same write. *)
Theorem HSE_PLL_turns_HSI_off_without_readback (fuel : nat) (h : HW) :
  (out (CLK_init_HSE_PLL fuel h) = Done tt ->
   exists l1 p1 l3,
     evs (CLK_init_HSE_PLL fuel h)
     = l1 ++ Store RCC_CTLR (wrap32 RCC_HSEON)
          :: Store RCC_CFGR0
               (wrap32 (Z.lor (Z.lor RCC_SW_HSE RCC_HPRE_DIV1)
                              RCC_PLLSRC_HSE_Mul2))
          :: Store RCC_CTLR (wrap32 (Z.lor RCC_HSEON RCC_PLLON))
          :: p1 ++ l3 /\
     stores_to RCC_CFGR0 l1 = [wrap32 (Z.lor RCC_SW_HSE RCC_HPRE_DIV1)] /\
     existsb (is_load RCC_CFGR0) l1 = false /\
     poll_log RCC_CTLR (fun x => Z.land x RCC_PLLRDY =? 0) p1) /\
  (out (CLK_init_HSE fuel h) = Done tt ->
   exists l1,
     evs (CLK_init_HSE fuel h) = l1 ++ [Store RCC_CTLR (wrap32 RCC_HSEON)] /\
     confirmed (wrap32 RCC_SWS) 0x04 l1).
Proof.
  split; intros D.
  - destruct (CLK_init_HSE_PLL_log _ _ D)
      as (a & b & p0 & p1 & p2 & -> & P0 & P1 & P2).
    apply poll_log_quiet in P0. destruct P0 as (S0 & _ & L0).
    rewrite cut_after_2.
    eexists _, p1, _. split; [reflexivity|].
    rewrite !stores_to_app, !existsb_app, S0, L0 by reflexivity.
    log_simpl. split; [reflexivity|]. split; [reflexivity|]. exact P1.
  - destruct (CLK_init_HSE_log _ _ D) as (a & b & p1 & p2 & -> & _ & P).
    rewrite !app_assoc. eexists. split; [reflexivity|].
    rewrite <- !app_assoc.
    do 3 apply confirmed_after. rewrite <- (app_nil_r p2).
    apply poll_confirms; [exact P | reflexivity | reflexivity | lia].
Qed.
End Clock.

(* ================================================================= *)
(** * Further properties of system.c *)

Lemma set_bit (x m i : Z) :
  0 <= i ->
  Z.testbit (wrap32 (Z.lor (wrap32 x) m)) i
  = Z.testbit (wrap32 x) i || ((i <? 32) && Z.testbit m i).
Proof.
  intros. rewrite !wrap32_bit, Z.lor_spec, wrap32_bit by lia.
  destruct (i <? 32), (Z.testbit x i), (Z.testbit m i); reflexivity.
Qed.

Lemma sets_only_set (x m : Z) :
  sets_only m (wrap32 x) (wrap32 (Z.lor (wrap32 x) m)).
Proof. intros i Hi. now apply set_bit. Qed.

(** ** The default interrupt handler *)

Section Handler.
Context {HW : Type} `{Device HW}.

(** X12.  [DefaultIRQHandler] never returns and touches no register:
    however many turns of its loop are observed, it is still spinning,
    the device is as it was and the log is empty. *)
Theorem DefaultIRQHandler_spins (fuel : nat) (h : HW) :
  DefaultIRQHandler fuel h = mkRun Hang h [].
Proof.
  unfold DefaultIRQHandler. induction fuel as [|k IH]; [reflexivity|].
  cbn [while_]. rewrite bind_run. cbn [ret out dev evs].
  rewrite bind_run. cbn [ret out dev evs]. rewrite IH. reflexivity.
Qed.
End Handler.

(** ** Clock output pin *)

Section Pins.
Context {HW : Type} `{Device HW} `{SystemH}.

Lemma set_bits_last (r : reg) (v : Z) (h : HW) :
  set_bits r v h
  = mkRun (Done tt)
      (dev_store r (wrap32 (Z.lor (wrap32 (fst (dev_load r h))) v))
         (snd (dev_load r h)))
      [Load r (wrap32 (fst (dev_load r h)));
       Store r (wrap32 (Z.lor (wrap32 (fst (dev_load r h))) v))].
Proof. reflexivity. Qed.

(** A four-bit field at bit 16: which bits of [c << 16] are set. *)
Lemma nibble_16 (c i : Z) :
  0 <= c < 16 -> 0 <= i ->
  Z.testbit (Z.shiftl c 16) i
  = (16 <=? i) && (i <? 20) && Z.testbit c (i - 16).
Proof.
  intros Rc Hi. rewrite Z.shiftl_spec by lia.
  destruct (16 <=? i) eqn:L; [apply Z.leb_le in L | apply Z.leb_gt in L].
  - destruct (i <? 20) eqn:U; [reflexivity | apply Z.ltb_ge in U].
    simpl. destruct (Z.eq_dec c 0) as [->|N]; [apply Z.bits_0|].
    apply Z.bits_above_log2; [lia|].
    assert (Z.log2 c < 4) by (apply Z.log2_lt_pow2; lia). lia.
  - simpl. apply Z.testbit_neg_r. lia.
Qed.

(** X2.  On a device whose port C configuration register is plain
    storage, [MCO_init] always returns with the four configuration bits
    of pin 4 (bits 16 to 19) equal to 1011 and every other bit of that
    register as it was; besides it writes only the peripheral clock
    enable register, where it sets bits and clears none. *)
Theorem MCO_init_configures_pin_4 (h : HW) (peek : HW -> Z) :
  Latched GPIOC_CFGLR peek ->
  out (MCO_init h) = Done tt /\
  written (evs (MCO_init h)) = [RCC_APB2PCENR; GPIOC_CFGLR; GPIOC_CFGLR] /\
  (exists v,
      stores_to RCC_APB2PCENR (evs (MCO_init h)) = [v] /\
      sets_only (Z.lor RCC_AFIOEN RCC_IOPCEN)
        (wrap32 (fst (dev_load RCC_APB2PCENR h))) v) /\
  (forall i, 16 <= i < 20 ->
             Z.testbit (peek (dev (MCO_init h))) i = Z.testbit 0xB (i - 16)) /\
  (forall i, 0 <= i -> ~ 16 <= i < 20 ->
             Z.testbit (peek (dev (MCO_init h))) i
             = Z.testbit (wrap32 (peek h)) i).
Proof.
  intros L. unfold MCO_init. exec. rewrite set_bits_last. log_simpl.
  change (Z.shiftl 4 2) with 16.
  split; [reflexivity|]. split; [reflexivity|].
  split; [eexists; split; [reflexivity | apply sets_only_set]|].
  rewrite latch_store, latch_read, latch_store, latch_read.
  rewrite latch_other, latch_load by reflexivity.
  assert (B : forall i, 0 <= i ->
                Z.testbit
                  (wrap32
                     (Z.lor
                        (wrap32
                           (wrap32
                              (Z.land (wrap32 (peek h))
                                 (Z.lnot (Z.shiftl 15 16)))))
                        (Z.shiftl 11 16))) i
                = Z.testbit (wrap32 (peek h)) i
                  && negb ((16 <=? i) && (i <? 20))
                  || (16 <=? i) && (i <? 20) && Z.testbit 11 (i - 16)).
  { intros i Hi.
    rewrite set_bit, wrap32_idem, clear_bit, !nibble_16 by lia.
    destruct (16 <=? i) eqn:L16; [apply Z.leb_le in L16|];
      destruct (i <? 20) eqn:L20; try apply Z.ltb_lt in L20; simpl;
      rewrite ?andb_true_r, ?andb_false_r, ?orb_false_r; try reflexivity.
    assert (C : i = 16 \/ i = 17 \/ i = 18 \/ i = 19) by lia.
    destruct C as [-> | [-> | [-> | ->]]]; simpl;
      rewrite ?andb_false_r, ?andb_true_r, ?orb_false_r; reflexivity. }
  split; intros i.
  - intros R. rewrite B by lia.
    destruct (16 <=? i) eqn:L16; [|apply Z.leb_gt in L16; lia].
    destruct (i <? 20) eqn:L20; [|apply Z.ltb_ge in L20; lia].
    simpl. now rewrite andb_false_r.
  - intros Hi N. rewrite B by lia.
    destruct (16 <=? i) eqn:L16; [apply Z.leb_le in L16|];
      destruct (i <? 20) eqn:L20; try apply Z.ltb_lt in L20; simpl;
      rewrite ?andb_true_r, ?orb_false_r; try reflexivity.
    lia.
Qed.
End Pins.

(** ** Sleep after standby *)

Section SleepModes.
Context {HW : Type} `{Device HW} `{SystemH}.

Lemma sleep_after_standby (m1 m2 : macro) (h : HW) (peek : HW -> Z) :
  Latched PWR_CTLR peek ->
  let stdby := set_bits PWR_CTLR PWR_CTLR_PDDS ;;
               set_bits PFIC_SCTLR PFIC_SLEEPDEEP ;;
               call m1 ;;
               clear_bits PFIC_SCTLR PFIC_SLEEPDEEP in
  let sleep := clear_bits PWR_CTLR PWR_CTLR_PDDS ;; call m2 in
  out (stdby h) = Done tt ->
  clears_only PWR_CTLR_PDDS (wrap32 (peek h))
    (peek (dev ((stdby ;; sleep) h))).
Proof.
  intros L stdby sleep D. rewrite dev_bind, D.
  destruct (standby_frame m1 h peek L) as (_ & _ & E1 & _).
  destruct (sleep_frame m2 (dev (stdby h)) peek L) as (new & _ & _ & C & E2).
  fold stdby in E1. fold sleep in E2. rewrite E2.
  intros i Hi. rewrite (C i Hi), E1, wrap32_idem, set_bit by lia.
  destruct (Z.testbit (wrap32 (peek h)) i), (i <? 32),
    (Z.testbit PWR_CTLR_PDDS i); reflexivity.
Qed.

(** X13.  Normal sleep called after a standby that returned puts the
    power control register back in sleep mode: on a device where that
    register is plain storage, it then holds what it held before the
    standby call, with PDDS clear. *)
Theorem sleep_after_standby_clears_PDDS (h : HW) (peek : HW -> Z)
    (stdby sleep : M HW unit) :
  Latched PWR_CTLR peek ->
  stdby = STDBY_WFI_now \/ stdby = STDBY_WFE_now ->
  sleep = SLEEP_WFI_now \/ sleep = SLEEP_WFE_now ->
  out (stdby h) = Done tt ->
  clears_only PWR_CTLR_PDDS (wrap32 (peek h))
    (peek (dev ((stdby ;; sleep) h))).
Proof.
  intros L [-> | ->] [-> | ->]; apply sleep_after_standby; assumption.
Qed.
End SleepModes.

(** ** System set-up *)

Section Setup.
Context {HW : Type} `{Device HW} `{SystemH}.

(** X1.  [SYS_init] runs, in this order, the clock set-up, the SysTick
    set-up and the GPIO clock enable, each only when its configuration
    flag is positive.  The only register it writes itself is the
    peripheral clock enable register, where it sets bits and clears
    none; and when one of the first two steps does not come back, that
    register is not written at all. *)
Theorem SYS_init_steps (h : HW) :
  (out (SYS_init h) = Done tt ->
   exists a,
     evs (SYS_init h)
     = (if SYS_CLK_INIT >? 0 then [Call m_CLK_init] else [])
       ++ (if SYS_TICK_INIT >? 0 then [Call m_STK_init] else [])
       ++ (if SYS_GPIO_EN >? 0
           then [Load RCC_APB2PCENR (wrap32 a);
                 Store RCC_APB2PCENR
                   (wrap32 (Z.lor (wrap32 a)
                              (Z.lor (Z.lor RCC_IOPAEN RCC_IOPCEN)
                                     RCC_IOPDEN)))]
           else []) /\
     sets_only (Z.lor (Z.lor RCC_IOPAEN RCC_IOPCEN) RCC_IOPDEN)
       (wrap32 a)
       (wrap32 (Z.lor (wrap32 a)
                  (Z.lor (Z.lor RCC_IOPAEN RCC_IOPCEN) RCC_IOPDEN)))) /\
  (out (SYS_init h) = Hang -> written (evs (SYS_init h)) = []).
Proof.
  unfold SYS_init, CLK_init, STK_init.
  destruct (SYS_CLK_INIT >? 0), (SYS_TICK_INIT >? 0), (SYS_GPIO_EN >? 0);
    repeat (match goal with
            | |- context [bind (call ?m) ?k ?x] =>
                rewrite (call_then m k x); destruct (dev_call m x)
            | |- context [bind (ret tt) ?k ?x] =>
                rewrite (bind_run (ret tt) k x); cbn [ret out dev evs]
            end; cbv beta);
    rewrite ?set_bits_last; log_simpl;
    (split; intros D; try discriminate D); try reflexivity;
    first [ exists 0; split; [reflexivity | apply sets_only_set]
          | eexists; split; [reflexivity | apply sets_only_set] ].
Qed.
End Setup.

(** ** Polls and what may follow them *)

Lemma precedesb_loads_any (P Q : event -> bool) (r : reg) (vs : list Z)
      (l : list event) :
  (forall x, Q (Load r x) = false) ->
  precedesb P Q l = true ->
  precedesb P Q (map (Load r) vs ++ l) = true.
Proof.
  intros NQ T. induction vs as [|x vs IH]; simpl; [exact T|].
  rewrite NQ. destruct (P (Load r x)); [reflexivity | exact IH].
Qed.

Lemma precedesb_loads_waiting (P Q : event -> bool) (r : reg)
      (t : Z -> bool) (vs : list Z) (l : list event) :
  (forall x, Q (Load r x) = false) ->
  (forall x, P (Load r x) = negb (t x)) ->
  Forall (fun x => t x = true) vs ->
  precedesb P Q (map (Load r) vs ++ l) = precedesb P Q l.
Proof.
  intros NQ PT F. induction F as [|x vs T F IH]; simpl; [reflexivity|].
  now rewrite NQ, PT, T.
Qed.

(** A poll in a sequence, in a statement about the whole log: the two
    ways it can end, with the log of its reads in [E]. *)
Ltac poll_cases E :=
  rewrite bind_run;
  match goal with
  | |- context [poll_while ?f ?r ?t ?x] =>
      let vs := fresh "vs" in
      destruct (poll_while_run f r t x) as (vs & E & _);
      destruct (out (poll_while f r t x)) as [[]|]
  end.

Section AfterPoll.
Context {HW : Type} `{Device HW}.

(** Whatever follows a poll in a sequence comes after a read that ended
    the poll: in the log of the sequence, whether it returned or not,
    no event [Q] that the poll itself cannot produce comes before a
    read [P] that found the loop condition false. *)
Lemma precedesb_poll {B} (P Q : event -> bool) (r : reg) (t : Z -> bool)
      (fuel : nat) (k : unit -> M HW B) (h : HW) :
  (forall x, Q (Load r x) = false) ->
  (forall x, P (Load r x) = negb (t x)) ->
  precedesb P Q (evs (bind (poll_while fuel r t) k h)) = true.
Proof.
  intros NQ PT. rewrite bind_run.
  destruct (poll_while_run fuel r t h) as (vs & E & O).
  destruct (out (poll_while fuel r t h)) as [[]|]; cbn [prepend evs];
    rewrite E.
  - destruct O as (ws & v & -> & F & T).
    rewrite map_app, <- app_assoc.
    rewrite (precedesb_loads_waiting P Q r t) by assumption.
    simpl. now rewrite NQ, PT, T.
  - destruct O as [F _]. rewrite <- (app_nil_r (map _ _)).
    now rewrite (precedesb_loads_waiting P Q r t) by assumption.
Qed.

(** The same when the reads of the poll may or may not be [P]. *)
Lemma precedesb_poll_any {B} (P Q : event -> bool) (r : reg)
      (t : Z -> bool) (fuel : nat) (k : unit -> M HW B) (h : HW) :
  (forall x, Q (Load r x) = false) ->
  (forall h', precedesb P Q (evs (k tt h')) = true) ->
  precedesb P Q (evs (bind (poll_while fuel r t) k h)) = true.
Proof.
  intros NQ K. rewrite bind_run.
  destruct (poll_while_run fuel r t h) as (vs & E & _).
  destruct (out (poll_while fuel r t h)) as [[]|]; cbn [prepend evs];
    rewrite E.
  - apply precedesb_loads_any; [assumption | apply K].
  - rewrite <- (app_nil_r (map _ _)).
    apply precedesb_loads_any; [assumption | reflexivity].
Qed.
End AfterPoll.

(** ** Readiness before switching, in every run *)

Section Readiness.
Context {HW : Type} `{Device HW} `{SystemH}.

Lemma CLK_init_HSE_control_writes (fuel : nat) (h : HW) :
  stores_to RCC_CTLR (evs (CLK_init_HSE fuel h))
  = wrap32 (Z.lor (Z.lor RCC_HSION RCC_HSEON) RCC_PLLON)
    :: match out (CLK_init_HSE fuel h) with
       | Done _ => [wrap32 RCC_HSEON]
       | Hang => []
       end.
Proof.
  unfold CLK_init_HSE. exec. log_simpl. f_equal.
  poll_cases E1; log_simpl; rewrite E1; [|apply stores_to_loads].
  rewrite stores_to_app, stores_to_loads. cbn [app].
  exec. log_simpl.
  poll_cases E2; log_simpl; rewrite E2, ?stores_to_app, stores_to_loads;
    reflexivity.
Qed.

(** X4.  In [CLK_init_HSE] and [CLK_init_HSE_PLL], in every run,
    returned or still waiting, no write of the clock configuration
    register comes before a read of the control register that showed
    HSERDY set: the source selector is not touched while the crystal is
    not ready.  [CLK_init_HSE] moreover writes the control register a
    second time, turning the internal oscillator and the multiplier
    off, only in runs that return. *)
Theorem crystal_ready_before_any_switch (fuel : nat) (h : HW) :
  precedesb (load_flag RCC_CTLR RCC_HSERDY) (is_store RCC_CFGR0)
    (evs (CLK_init_HSE fuel h)) = true /\
  precedesb (load_flag RCC_CTLR RCC_HSERDY) (is_store RCC_CFGR0)
    (evs (CLK_init_HSE_PLL fuel h)) = true /\
  stores_to RCC_CTLR (evs (CLK_init_HSE fuel h))
  = wrap32 (Z.lor (Z.lor RCC_HSION RCC_HSEON) RCC_PLLON)
    :: match out (CLK_init_HSE fuel h) with
       | Done _ => [wrap32 RCC_HSEON]
       | Hang => []
       end.
Proof.
  split; [|split; [|apply CLK_init_HSE_control_writes]].
  - unfold CLK_init_HSE. exec. log_simpl.
    apply precedesb_poll; reflexivity.
  - unfold CLK_init_HSE_PLL. exec. log_simpl.
    apply precedesb_poll; reflexivity.
Qed.

(** X5.  In [CLK_init_HSI_PLL], in every run, the clock configuration
    register is not read (for the read-modify-write that selects the
    multiplier) before a read of the control register showed PLLRDY
    set, and the control register is written exactly once, with HSION,
    PLLON and the trim value and nothing else. *)
Theorem multiplier_locked_before_selected (fuel : nat) (h : HW) :
  precedesb (load_flag RCC_CTLR RCC_PLLRDY) (is_load RCC_CFGR0)
    (evs (CLK_init_HSI_PLL fuel h)) = true /\
  stores_to RCC_CTLR (evs (CLK_init_HSI_PLL fuel h))
  = [wrap32 (Z.lor (Z.lor RCC_HSION RCC_PLLON) (Z.shiftl HSITRIM 3))].
Proof.
  split; unfold CLK_init_HSI_PLL; exec; log_simpl.
  - apply precedesb_poll; reflexivity.
  - f_equal.
    poll_cases E1; log_simpl; rewrite E1; [|apply stores_to_loads].
    rewrite stores_to_app, stores_to_loads. cbn [app].
    rewrite bind_assoc. exec. log_simpl.
    match goal with
    | |- stores_to _ (evs (poll_while ?f ?r ?t ?x)) = _ =>
        destruct (poll_while_run f r t x) as (ws & -> & _)
    end.
    apply stores_to_loads.
Qed.

(** X3.  In [CLK_init_HSE] and [CLK_init_HSE_PLL], in every run, the pin
    remap register is not accessed before the write that enables the
    alternate-function clock, and the clock control register is not
    written before the write that remaps the crystal pins; both writes
    set bits of what was read and clear none. *)
Theorem crystal_pins_remapped_behind_clock_gate (fuel : nat) (h : HW)
    (r : run HW unit) :
  r = CLK_init_HSE fuel h \/ r = CLK_init_HSE_PLL fuel h ->
  precedesb (store_with RCC_APB2PCENR (wrap32 RCC_AFIOEN))
    (is_access AFIO_PCFR1) (evs r) = true /\
  precedesb (store_with AFIO_PCFR1 (wrap32 AFIO_PCFR1_PA12_REMAP))
    (is_store RCC_CTLR) (evs r) = true /\
  exists a a' b b' l,
    evs r = Load RCC_APB2PCENR a :: Store RCC_APB2PCENR a'
            :: Load AFIO_PCFR1 b :: Store AFIO_PCFR1 b' :: l /\
    sets_only RCC_AFIOEN a a' /\
    sets_only AFIO_PCFR1_PA12_REMAP b b'.
Proof.
  intros [-> | ->]; [unfold CLK_init_HSE | unfold CLK_init_HSE_PLL];
    exec; unfold is_access; log_simpl;
    rewrite !set_then_set, !Z.eqb_refl;
    (split; [reflexivity|]); (split; [reflexivity|]);
    eexists _, _, _, _, _;
    (split; [reflexivity|]); split; apply sets_only_set.
Qed.
End Readiness.

(** ** Watchdog keys and wake-up timer *)

Section WatchdogKeys.
Context {HW : Type} `{Device HW} `{SystemH}.

Lemma busy_flag_clear (r : reg) (mask x : Z) :
  load_field r mask 0 (Load r x) = negb (negb (Z.land x mask =? 0)).
Proof.
  unfold load_field. rewrite negb_involutive.
  now destruct r.
Qed.

Lemma IWDG_start_keys (fuel : nat) (ms : Z) (h : HW) :
  stores_to IWDG_CTLR (evs (IWDG_start fuel ms h))
  = match out (IWDG_start fuel ms h) with
    | Done _ => [0x5555; 0xAAAA; 0xCCCC]
    | Hang => match dev_call m_LSI_enable h with
              | Some _ => [0x5555]
              | None => []
              end
    end.
Proof.
  unfold IWDG_start, LSI_enable. rewrite call_then.
  destruct (dev_call m_LSI_enable h) as [h1|]; [|reflexivity].
  exec. log_simpl. change (wrap32 21845) with 21845.
  poll_cases E1; log_simpl; rewrite E1;
    [|now rewrite stores_to_loads].
  rewrite stores_to_app, stores_to_loads. cbn [app].
  exec. log_simpl.
  poll_cases E2; log_simpl; rewrite E2;
    [|now rewrite stores_to_loads].
  rewrite stores_to_app, stores_to_loads. reflexivity.
Qed.

Lemma IWDG_reload_keys (fuel : nat) (ms : Z) (h : HW) :
  stores_to IWDG_CTLR (evs (IWDG_reload fuel ms h))
  = 0x5555 :: match out (IWDG_reload fuel ms h) with
              | Done _ => [0xAAAA]
              | Hang => []
              end /\
  stores_to IWDG_PSCR (evs (IWDG_reload fuel ms h)) = [].
Proof.
  unfold IWDG_reload. exec. log_simpl. change (wrap32 21845) with 21845.
  poll_cases E1; log_simpl; rewrite E1, ?stores_to_app, !stores_to_loads;
    split; reflexivity.
Qed.

Lemma precedesb_skip (P Q : event -> bool) (e : event) (l : list event) :
  Q e = false -> P e = false ->
  precedesb P Q (e :: l) = precedesb P Q l.
Proof. intros NQ NP. cbn [precedesb]. now rewrite NQ, NP. Qed.

Lemma precedesb_here (P Q : event -> bool) (e : event) (l : list event) :
  Q e = false -> P e = true -> precedesb P Q (e :: l) = true.
Proof. intros NQ YP. cbn [precedesb]. now rewrite NQ, YP. Qed.

(** Everything [IWDG_start] does when it returns. *)
Lemma IWDG_start_log (fuel : nat) (ms : Z) (h : HW) :
  out (IWDG_start fuel ms h) = Done tt ->
  IWDG_start_order ms (evs (IWDG_start fuel ms h)).
Proof.
  unfold IWDG_start, IWDG_start_order, LSI_enable. rewrite call_then.
  destruct (dev_call m_LSI_enable h) as [h1|]; [|intros D; discriminate D].
  exec. poll_step E1. exec. poll_step E2. exec.
  log_simpl. intros _.
  eexists _, _. split; [reflexivity|]. split; assumption.
Qed.

(** Everything [IWDG_reload] does when it returns. *)
Lemma IWDG_reload_log (fuel : nat) (ms : Z) (h : HW) :
  out (IWDG_reload fuel ms h) = Done tt ->
  IWDG_reload_order ms (evs (IWDG_reload fuel ms h)).
Proof.
  unfold IWDG_reload, IWDG_reload_order.
  exec. poll_step E1. exec.
  log_simpl. intros _.
  eexists. split; [reflexivity|]. assumption.
Qed.

(** In every run the keys that load and start the counter come after
    the write of the reload register. *)
Lemma IWDG_start_arms_last (fuel : nat) (ms : Z) (h : HW) :
  precedesb (is_store IWDG_RLDR) is_arming_key
    (evs (IWDG_start fuel ms h)) = true.
Proof.
  unfold IWDG_start, LSI_enable. rewrite call_then.
  destruct (dev_call m_LSI_enable h) as [h1|]; [|reflexivity].
  exec. cbn [prepend evs app].
  rewrite !precedesb_skip by reflexivity.
  apply precedesb_poll_any; [reflexivity|]. intros h2.
  exec. cbn [prepend evs app].
  rewrite precedesb_skip by reflexivity.
  apply precedesb_poll_any; [reflexivity|]. intros h3.
  exec. cbn [prepend evs app].
  apply precedesb_here; reflexivity.
Qed.

Lemma IWDG_reload_arms_last (fuel : nat) (ms : Z) (h : HW) :
  precedesb (is_store IWDG_RLDR) is_arming_key
    (evs (IWDG_reload fuel ms h)) = true.
Proof.
  unfold IWDG_reload.
  exec. cbn [prepend evs app].
  rewrite precedesb_skip by reflexivity.
  apply precedesb_poll_any; [reflexivity|]. intros h2.
  exec. cbn [prepend evs app].
  apply precedesb_here; reflexivity.
Qed.

(** X8.  [IWDG_start] does nothing but the call of the low-speed clock
    macro when that macro does not come back: no register is read or
    written.  A run of [IWDG_start] that returns is exactly: the macro,
    the unlock key 0x5555, a finished poll of PVU, the prescaler 7, a
    finished poll of RVU, the reload value, the key 0xAAAA, the key
    0xCCCC; a run of [IWDG_reload] that returns is exactly: the unlock
    key, a finished poll of RVU, the reload value, the key 0xAAAA.  In
    every run, returning or not, neither of the keys 0xAAAA and 0xCCCC
    is written before the reload register is; the control register
    receives the keys listed here (the unlock key alone when a poll
    does not end), [IWDG_reload] never writes the prescaler; the
    prescaler is written only after a read of the status register
    showed PVU clear, and the reload register only after a read showed
    RVU clear. *)
Theorem watchdog_keys_and_busy_flags (fuel : nat) (ms : Z) (h : HW) :
  (dev_call m_LSI_enable h = None ->
   IWDG_start fuel ms h = mkRun Hang h [Call m_LSI_enable]) /\
  (out (IWDG_start fuel ms h) = Done tt ->
   IWDG_start_order ms (evs (IWDG_start fuel ms h))) /\
  (out (IWDG_reload fuel ms h) = Done tt ->
   IWDG_reload_order ms (evs (IWDG_reload fuel ms h))) /\
  precedesb (is_store IWDG_RLDR) is_arming_key
    (evs (IWDG_start fuel ms h)) = true /\
  precedesb (is_store IWDG_RLDR) is_arming_key
    (evs (IWDG_reload fuel ms h)) = true /\
  stores_to IWDG_CTLR (evs (IWDG_start fuel ms h))
  = match out (IWDG_start fuel ms h) with
    | Done _ => [0x5555; 0xAAAA; 0xCCCC]
    | Hang => match dev_call m_LSI_enable h with
              | Some _ => [0x5555]
              | None => []
              end
    end /\
  stores_to IWDG_CTLR (evs (IWDG_reload fuel ms h))
  = 0x5555 :: match out (IWDG_reload fuel ms h) with
              | Done _ => [0xAAAA]
              | Hang => []
              end /\
  stores_to IWDG_PSCR (evs (IWDG_reload fuel ms h)) = [] /\
  precedesb (load_field IWDG_STATR IWDG_PVU 0) (is_store IWDG_PSCR)
    (evs (IWDG_start fuel ms h)) = true /\
  precedesb (load_field IWDG_STATR IWDG_RVU 0) (is_store IWDG_RLDR)
    (evs (IWDG_start fuel ms h)) = true /\
  precedesb (load_field IWDG_STATR IWDG_RVU 0) (is_store IWDG_RLDR)
    (evs (IWDG_reload fuel ms h)) = true.
Proof.
  split.
  { intros E. unfold IWDG_start, LSI_enable. rewrite call_then, E.
    reflexivity. }
  split; [apply IWDG_start_log|].
  split; [apply IWDG_reload_log|].
  split; [apply IWDG_start_arms_last|].
  split; [apply IWDG_reload_arms_last|].
  split; [apply IWDG_start_keys|].
  split; [apply IWDG_reload_keys|].
  split; [apply IWDG_reload_keys|].
  split; [|split].
  - unfold IWDG_start, LSI_enable. rewrite call_then.
    destruct (dev_call m_LSI_enable h) as [h1|]; [|reflexivity].
    exec. log_simpl.
    apply precedesb_poll; [reflexivity | intros; apply busy_flag_clear].
  - unfold IWDG_start, LSI_enable. rewrite call_then.
    destruct (dev_call m_LSI_enable h) as [h1|]; [|reflexivity].
    exec. log_simpl.
    apply precedesb_poll_any; [reflexivity|]. intros h'.
    exec. log_simpl.
    apply precedesb_poll; [reflexivity | intros; apply busy_flag_clear].
  - unfold IWDG_reload. exec. log_simpl.
    apply precedesb_poll; [reflexivity | intros; apply busy_flag_clear].
Qed.

(** X9.  [AWU_init] does nothing more when the low-speed clock macro
    does not come back.  Otherwise it returns, having set bit 9 in the
    event enable and in the falling-edge trigger registers and the
    power module bit in the APB1 clock enable register, each time
    leaving every other bit as read, and having written the wake-up
    control register last, after the power module was enabled. *)
Theorem AWU_init_steps (h : HW) :
  (dev_call m_LSI_enable h = None ->
   AWU_init h = mkRun Hang h [Call m_LSI_enable]) /\
  (forall h1, dev_call m_LSI_enable h = Some h1 ->
     out (AWU_init h) = Done tt /\
     exists a a' b b' c c',
       evs (AWU_init h)
       = [Call m_LSI_enable;
          Load EXTI_EVENR a; Store EXTI_EVENR a';
          Load EXTI_FTENR b; Store EXTI_FTENR b';
          Load RCC_APB1PCENR c; Store RCC_APB1PCENR c';
          Store PWR_AWUCSR (wrap32 PWR_AWUCSR_AWUEN)] /\
       sets_only (Z.shiftl 1 9) a a' /\ Z.testbit a' 9 = true /\
       sets_only (Z.shiftl 1 9) b b' /\ Z.testbit b' 9 = true /\
       sets_only RCC_PWREN c c').
Proof.
  unfold AWU_init, LSI_enable. rewrite call_then. split.
  - intros ->. reflexivity.
  - intros h1 ->. exec. log_simpl. split; [reflexivity|].
    eexists _, _, _, _, _, _. split; [reflexivity|].
    assert (B9 : forall x, Z.testbit (wrap32 (Z.lor (wrap32 x) (Z.shiftl 1 9)))
                             9 = true).
    { intros x. rewrite set_bit by lia.
      change (Z.testbit (Z.shiftl 1 9) 9) with true.
      change (9 <? 32) with true. apply orb_true_r. }
    repeat split; try apply sets_only_set; apply B9.
Qed.
End WatchdogKeys.

(** ** More on the delay *)

Lemma wrapped_difference (c0 c n : Z) :
  wrap32 (wrap32 c - wrap32 (wrap32 c0 + n)) = wrap32 (c - c0 - n).
Proof.
  unfold wrap32.
  pose proof (Z.mod_eq c (2 ^ 32) ltac:(lia)) as Ec.
  pose proof (Z.mod_eq c0 (2 ^ 32) ltac:(lia)) as Ec0.
  pose proof (Z.mod_eq (c0 mod 2 ^ 32 + n) (2 ^ 32) ltac:(lia)) as Et.
  replace (c mod 2 ^ 32 - (c0 mod 2 ^ 32 + n) mod 2 ^ 32)
    with (c - c0 - n
          + (c0 / 2 ^ 32 + (c0 mod 2 ^ 32 + n) / 2 ^ 32 - c / 2 ^ 32)
            * 2 ^ 32) by lia.
  apply Z_mod_plus_full.
Qed.

Lemma int32_of_small (x : Z) : 0 <= x < 2 ^ 31 -> int32_t (wrap32 x) = x.
Proof.
  intros R. unfold int32_t. rewrite wrap32_idem, wrap32_small by lia.
  destruct (x <? 2 ^ 31) eqn:L; [reflexivity | apply Z.ltb_ge in L; lia].
Qed.

Lemma forallb_loads (r : reg) (vs : list Z) :
  forallb (is_load r) (map (Load r) vs) = true.
Proof.
  induction vs as [|x vs IH]; simpl; [reflexivity|].
  rewrite IH. now destruct r.
Qed.

Section DelayBounds.
Context {HW : Type} `{Device HW}.

(** X6.  [DLY_ticks] does nothing but read SysTick: every event of every
    run is a read of [STK->CNT]; a run that returns has read it at
    least twice, and a run still waiting after [fuel] tests of the loop
    condition has read it [fuel + 1] times. *)
Theorem delay_only_reads_the_counter (fuel : nat) (n : Z) (h : HW) :
  forallb (is_load STK_CNT) (evs (DLY_ticks fuel n h)) = true /\
  (out (DLY_ticks fuel n h) = Done tt ->
   (2 <= length (evs (DLY_ticks fuel n h)))%nat) /\
  (out (DLY_ticks fuel n h) = Hang ->
   length (evs (DLY_ticks fuel n h)) = S fuel).
Proof.
  unfold DLY_ticks. rewrite load_then. cbv beta zeta. log_simpl.
  match goal with
  | |- context [poll_while ?f ?r ?t ?x] =>
      destruct (poll_while_run f r t x) as (vs & E & O);
      destruct (out (poll_while f r t x)) as [[]|]
  end; rewrite E; cbn [forallb is_load reg_eqb andb length];
    rewrite forallb_loads, length_map.
  - destruct O as (ws & v & -> & _). rewrite length_app. simpl.
    split; [reflexivity|]. split; [lia | discriminate].
  - destruct O as [_ ->]. split; [reflexivity|].
    split; [discriminate | reflexivity].
Qed.

Context (count : HW -> Z) (D : Z) `{!Paced count D}.

(** The polling loop of [DLY_ticks] on a paced counter, from a state
    where the target [c0 + n] is not yet passed. *)
Lemma poll_paced (fuel : nat) (c0 n : Z) (h : HW) :
  0 <= n -> n + D < 2 ^ 31 ->
  c0 <= count h <= c0 + n ->
  Z.of_nat fuel > c0 + n - count h ->
  let r := poll_while fuel STK_CNT
             (fun now => int32_t (wrap32 (now - wrap32 (wrap32 c0 + n)))
                         <? 0) h in
  out r = Done tt /\ c0 + n <= count (dev r) <= c0 + n + D.
Proof.
  intros Rn RD. revert h.
  induction fuel as [|k IH]; intros h Rc F; [lia|].
  cbv zeta. unfold poll_while in *. cbn [while_].
  rewrite bind_run, load_then. cbv beta. log_simpl.
  rewrite pace_sample, wrapped_difference.
  pose proof (pace_step h) as S.
  set (h1 := snd (dev_load STK_CNT h)) in *.
  destruct (Z_lt_le_dec (count h1 - c0 - n) 0) as [Neg|Pos].
  - rewrite int32_of_negative by lia.
    replace (count h1 - c0 - n <? 0) with true by (symmetry; lia).
    cbv iota. rewrite bind_run. log_simpl.
    apply (IH h1); lia.
  - rewrite int32_of_small by lia.
    replace (count h1 - c0 - n <? 0) with false by (symmetry; lia).
    cbv iota. log_simpl. split; [reflexivity | lia].
Qed.

(** X7.  On a device whose SysTick advances by at least one and at most
    [D] ticks from one read to the next, with [n + D < 2^31]:
    [DLY_ticks n] returns within [n + 1] tests of its loop condition,
    after more than [n] ticks and at most [n + 2 D] ticks since the
    call began. *)
Theorem delay_ends_within_two_steps_of_n (fuel : nat) (n : Z) (h : HW) :
  0 <= n -> n + D < 2 ^ 31 -> Z.of_nat fuel > n ->
  out (DLY_ticks fuel n h) = Done tt /\
  count h + n < count (dev (DLY_ticks fuel n h)) <= count h + n + 2 * D.
Proof.
  intros Rn RD F. unfold DLY_ticks. rewrite load_then. cbv beta zeta.
  log_simpl. rewrite pace_sample.
  pose proof (pace_step h) as S.
  set (h1 := snd (dev_load STK_CNT h)) in *.
  destruct (poll_paced fuel (count h1) n h1 Rn RD) as [Dn B]; [lia | lia |].
  split; [exact Dn | lia].
Qed.
End DelayBounds.

(** ** More on start-up *)

Section ResetFrame.
Context {HW : Type} `{Device HW} `{SystemH} `{LinkerScript}.

Lemma handle_reset_memory (fuel : nat) (m m' : memory) (h : HW) :
  out (handle_reset fuel m h) = Done m' ->
  exists m1, clear_bss fuel _sbss m = Some m1 /\
             copy_data fuel _data_lma _data_vma m1 = Some m'.
Proof.
  unfold handle_reset. rewrite out_bind.
  destruct (out (call asm_startup h)) as [[]|]; [|discriminate].
  destruct (clear_bss fuel _sbss m) as [m1|]; [|discriminate].
  destruct (copy_data fuel _data_lma _data_vma m1) as [m2|] eqn:E2;
    [|discriminate].
  rewrite out_bind. destruct (out (SYS_init _)) as [[]|]; [|discriminate].
  rewrite out_bind.
  destruct (out (call asm_mret_main _)) as [[]|]; [|discriminate].
  cbn [ret out]. intros [= <-]. eauto.
Qed.

(** X10.  Under the linker script's promises, when [handle_reset]
    reaches the [mret] that enters [main] it has changed no word of
    data memory outside the zeroed region and the initialised-data
    region; in particular the load image is as it was. *)
Theorem reset_leaves_other_memory (fuel : nat) (m m' : memory) (h : HW) :
  layout_ok ->
  out (handle_reset fuel m h) = Done m' ->
  (forall a, ~ _sbss <= a < _ebss -> ~ _data_vma <= a < _edata ->
             m' a = m a) /\
  (forall a, _data_lma <= a < _data_lma + (_edata - _data_vma) ->
             m' a = m a).
Proof.
  intros [_ (Ps & Be & Pv & Bd & Pl & Bl) BD ID IB] D.
  destruct (handle_reset_memory _ _ _ _ D) as (m1 & E1 & E2).
  destruct (clear_bss_spec _ _ _ _ Ps Be E1) as [_ Fr1].
  destruct (copy_data_spec _ _ _ _ _ Pv Bd Pl Bl ID E2) as [_ Fr2].
  assert (Fr : forall a, ~ _sbss <= a < _ebss -> ~ _data_vma <= a < _edata ->
                         m' a = m a).
  { intros a N1 N2. rewrite Fr2 by assumption. now apply Fr1. }
  split; [exact Fr|].
  intros a R. apply Fr; lia.
Qed.

End ResetFrame.

(** ** No timeout *)

Section NoTimeout.
Context {HW : Type} `{Device HW} `{SystemH}.

Lemma poll_never_ends (fuel : nat) (r : reg) (t : Z -> bool) (h : HW) :
  (forall h', t (wrap32 (fst (dev_load r h'))) = true) ->
  out (poll_while fuel r t h) = Hang.
Proof.
  intros W. revert h. induction fuel as [|k IH]; intros h; [reflexivity|].
  unfold poll_while in *. cbn [while_].
  rewrite bind_run, load_then. cbv beta. log_simpl. rewrite W.
  rewrite bind_run. log_simpl. apply IH.
Qed.

(** X14.  The crystal functions have no timeout: on a device whose
    control register never shows HSERDY, [CLK_init_HSE] and
    [CLK_init_HSE_PLL] are still waiting after any number of reads, and
    have not written the clock configuration register. *)
Theorem crystal_functions_wait_without_timeout (fuel : nat) (h : HW) :
  (forall h', Z.land (wrap32 (fst (dev_load RCC_CTLR h'))) RCC_HSERDY = 0) ->
  (out (CLK_init_HSE fuel h) = Hang /\
   stores_to RCC_CFGR0 (evs (CLK_init_HSE fuel h)) = []) /\
  (out (CLK_init_HSE_PLL fuel h) = Hang /\
   stores_to RCC_CFGR0 (evs (CLK_init_HSE_PLL fuel h)) = []).
Proof.
  intros Dead.
  assert (W : forall h', (fun x => Z.land x RCC_HSERDY =? 0)
                           (wrap32 (fst (dev_load RCC_CTLR h'))) = true)
    by (intros h'; cbv beta; now rewrite Dead).
  split; [unfold CLK_init_HSE | unfold CLK_init_HSE_PLL];
    exec; log_simpl; rewrite bind_run;
    match goal with
    | |- context [poll_while ?f ?r ?t ?x] =>
        rewrite (poll_never_ends f r t x W);
        destruct (poll_while_run f r t x) as (vs & E & _)
    end; log_simpl; rewrite E, stores_to_loads; split; reflexivity.
Qed.
End NoTimeout.

(** ** Runs on the simulated device *)

#[export] Instance sim_counts : FreeRunning ticks.
Proof.
  split. intros s. exists (ticks s + 3). simpl. split; [lia | reflexivity].
Qed.

#[export] Instance sim_power_control_latched :
  Latched PWR_CTLR (fun s => regs s PWR_CTLR).
Proof.
  split.
  - intros v s. reflexivity.
  - intros r' v s N. destruct r'; try discriminate N; reflexivity.
  - intros r' s. unfold dev_load, sim_device, sim_load. simpl.
    destruct (lag s); reflexivity.
  - intros s. unfold dev_load, sim_device, sim_load. simpl.
    destruct (lag s); reflexivity.
  - intros m s s' [= <-]. reflexivity.
Qed.

#[export] Instance sim_port_C_latched :
  Latched GPIOC_CFGLR (fun s => regs s GPIOC_CFGLR).
Proof.
  split.
  - intros v s. reflexivity.
  - intros r' v s N. destruct r'; try discriminate N; reflexivity.
  - intros r' s. unfold dev_load, sim_device, sim_load. simpl.
    destruct (lag s); reflexivity.
  - intros s. unfold dev_load, sim_device, sim_load. simpl.
    destruct (lag s); reflexivity.
  - intros m s s' [= <-]. reflexivity.
Qed.

#[export] Instance sim_paced : Paced ticks 3.
Proof.
  split; intros s; simpl; [reflexivity | lia].
Qed.

#[export] Instance sim_settling (mask : Z) : Settling mask 3.
Proof.
  intros r v s. cbn [clears_within].
  assert (E : fst (dev_load IWDG_STATR
                     (snd (dev_load IWDG_STATR
                             (snd (dev_load IWDG_STATR (dev_store r v s))))))
              = 0) by reflexivity.
  rewrite E. change (wrap32 0) with 0. rewrite Z.land_0_l.
  change (0 =? 0) with true. now rewrite !orb_true_r.
Qed.

#[export] Instance sim_reload_field :
  ReloadField (fun s => regs s IWDG_RLDR).
Proof.
  split.
  - intros v s. reflexivity.
  - intros r v s N. destruct r; try discriminate N; reflexivity.
Qed.

Lemma confirmed_has_read (sws want : Z) (l : list event) :
  confirmed sws want l -> existsb (is_load RCC_CFGR0) l = true.
Proof.
  intros (l1 & v & l2 & -> & _). rewrite existsb_app. simpl.
  apply orb_true_r.
Qed.

Lemma demo_layout_ok : @layout_ok demo_layout.
Proof.
  split; simpl.
  - repeat split; reflexivity.
  - lia.
  - lia.
  - lia.
  - lia.
Qed.

Section OnTheSimulator.
#[local] Existing Instance ch32v003_h.
#[local] Existing Instance demo_layout.

(** The logs of the four clock functions on the simulated CH32V003. *)
Example CLK_init_HSI_on_simulator :
  evs (CLK_init_HSI (sim_at 0))
  = [Store FLASH_ACTLR 0; Store RCC_INTR 0x9F0000; Store RCC_CFGR0 0;
     Store RCC_CTLR 0x81].
Proof. vm_compute. reflexivity. Qed.

Example CLK_init_HSI_PLL_on_simulator :
  evs (CLK_init_HSI_PLL 10 (sim_at 0))
  = [Store FLASH_ACTLR 1; Store RCC_INTR 0x9F0000; Store RCC_CFGR0 0;
     Store RCC_CTLR 0x1000081;
     Load RCC_CTLR 0x1000081; Load RCC_CTLR 0x1000081;
     Load RCC_CTLR 0x3000083;
     Load RCC_CFGR0 0; Store RCC_CFGR0 2;
     Load RCC_CFGR0 2; Load RCC_CFGR0 2; Load RCC_CFGR0 10].
Proof. vm_compute. reflexivity. Qed.

Example CLK_init_HSE_on_simulator :
  evs (CLK_init_HSE 10 (sim_at 0))
  = [Load RCC_APB2PCENR 0; Store RCC_APB2PCENR 1;
     Load AFIO_PCFR1 0; Store AFIO_PCFR1 0x8000;
     Store FLASH_ACTLR 0; Store RCC_CTLR 0x1010001;
     Load RCC_CTLR 0x1010001; Load RCC_CTLR 0x1010001;
     Load RCC_CTLR 0x3030003;
     Store RCC_CFGR0 1;
     Load RCC_CFGR0 1; Load RCC_CFGR0 1; Load RCC_CFGR0 5;
     Store RCC_CTLR 0x10000].
Proof. vm_compute. reflexivity. Qed.

Example CLK_init_HSE_PLL_on_simulator :
  evs (CLK_init_HSE_PLL 10 (sim_at 0))
  = [Load RCC_APB2PCENR 0; Store RCC_APB2PCENR 1;
     Load AFIO_PCFR1 0; Store AFIO_PCFR1 0x8000;
     Store RCC_CTLR 0x1010001;
     Load RCC_CTLR 0x1010001; Load RCC_CTLR 0x1010001;
     Load RCC_CTLR 0x3030003;
     Store RCC_CFGR0 1; Store FLASH_ACTLR 1; Store RCC_CTLR 0x10000;
     Store RCC_CFGR0 0x10001; Store RCC_CTLR 0x1010000;
     Load RCC_CTLR 0x1010000; Load RCC_CTLR 0x1010000;
     Load RCC_CTLR 0x3030000;
     Store RCC_CFGR0 0x10002;
     Load RCC_CFGR0 0x10006; Load RCC_CFGR0 0x10006;
     Load RCC_CFGR0 0x1000A].
Proof. vm_compute. reflexivity. Qed.

(** A delay of 0xFFFFFFFF ticks on the simulated device: the target is
    one tick behind the first sample, and the first poll ends the
    wait. *)
Example DLY_ticks_max_on_simulator :
  evs (DLY_ticks 1 0xFFFFFFFF (sim_at 0)) = [Load STK_CNT 3; Load STK_CNT 6].
Proof. vm_compute. reflexivity. Qed.

(** On the simulated CH32V003, [CLK_init_HSI] returns and has read
    nothing, so no switch status was confirmed. *)
Lemma HSI_returns_unconfirmed :
  ~ confirmed_on_return 0xC 0x0 (CLK_init_HSI (sim_at 0)).
Proof.
  intros C. apply (confirmed_has_read 0xC 0x0) in C.
  - vm_compute in C. discriminate C.
  - vm_compute. reflexivity.
Qed.

(** The crystal variants on the simulated CH32V003: both return, with
    the switch status read back as 0x04 and as 0x08. *)
Lemma clock_switch_confirmed_on_simulator :
  confirmed 0xC 0x04 (evs (CLK_init_HSE 10 (sim_at 0))) /\
  confirmed 0xC 0x08 (evs (CLK_init_HSE_PLL 10 (sim_at 0))).
Proof.
  destruct (clock_switch_confirmed_where_switched 10 (sim_at 0))
    as (_ & HSE & HSE_PLL & _).
  split.
  - apply HSE. vm_compute. reflexivity.
  - apply HSE_PLL. vm_compute. reflexivity.
Defined.

(** On the simulated CH32V003, [CLK_init_HSI_PLL] returns, and its
    write that turns the multiplier on is not preceded by any read of
    the control register showing HSIRDY (0x2). *)
Lemma HSI_PLL_enables_PLL_unchecked :
  out (CLK_init_HSI_PLL 10 (sim_at 0)) = Done tt /\
  ~ ready_before_PLL_on 0x2 RCC_PLLON (evs (CLK_init_HSI_PLL 10 (sim_at 0))).
Proof.
  split; [vm_compute; reflexivity|].
  unfold ready_before_PLL_on. vm_compute. discriminate.
Qed.

(** Both multiplier variants return on the simulated CH32V003, in the
    order stated above. *)
Lemma PLL_readiness_chain_on_simulator :
  HSI_PLL_order (evs (CLK_init_HSI_PLL 10 (sim_at 0))) /\
  HSE_PLL_order (evs (CLK_init_HSE_PLL 10 (sim_at 0))).
Proof.
  destruct (PLL_readiness_chain 10 (sim_at 0)) as (HSI_PLL & HSE_PLL & _).
  split.
  - apply HSI_PLL. vm_compute. reflexivity.
  - apply HSE_PLL. vm_compute. reflexivity.
Defined.

(** On the simulated CH32V003, [CLK_init_HSE_PLL] turns the crystal
    oscillator on (HSEON) before it has written the flash wait
    states. *)
Lemma HSE_PLL_enables_crystal_before_latency :
  out (CLK_init_HSE_PLL 10 (sim_at 0)) = Done tt /\
  ~ latency_before_enable RCC_HSEON (evs (CLK_init_HSE_PLL 10 (sim_at 0))).
Proof.
  split; [vm_compute; reflexivity|].
  unfold latency_before_enable. vm_compute. discriminate.
Qed.

(** The writes of [CLK_init_HSE_PLL] on the simulated CH32V003, before
    and after its write of the flash wait states. *)
Lemma flash_latency_write_order_on_simulator :
  exists l1 l2,
    evs (CLK_init_HSE_PLL 10 (sim_at 0)) = l1 ++ Store FLASH_ACTLR 1 :: l2 /\
    stores_to RCC_CTLR l1 = [0x1010001] /\
    stores_to RCC_CFGR0 l1 = [0x1] /\
    stores_to RCC_CTLR l2 = [0x10000; 0x1010000] /\
    stores_to RCC_CFGR0 l2 = [0x10001; 0x10002] /\
    stores_to FLASH_ACTLR (l1 ++ l2) = [].
Proof.
  destruct (flash_latency_write_order 10 (sim_at 0)) as (_ & _ & HSE_PLL).
  apply HSE_PLL. vm_compute. reflexivity.
Defined.

(** The simulated CH32V003 run of [CLK_init_HSE_PLL]: the internal
    oscillator and the multiplier are switched off (a control write
    with HSION and PLLON clear) although no read has shown HSE (0x4)
    in the switch status; the same check passes for [CLK_init_HSE]. *)
Lemma HSE_PLL_unconfirmed_on_simulator :
  out (CLK_init_HSE_PLL 10 (sim_at 0)) = Done tt /\
  ~ switch_confirmed_before_off 0xC 0x4 (Z.lor RCC_HSION RCC_PLLON)
      (evs (CLK_init_HSE_PLL 10 (sim_at 0))) /\
  switch_confirmed_before_off 0xC 0x4 (Z.lor RCC_HSION RCC_PLLON)
    (evs (CLK_init_HSE 10 (sim_at 0))).
Proof.
  split; [vm_compute; reflexivity|].
  unfold switch_confirmed_before_off.
  split; vm_compute; [discriminate | reflexivity].
Qed.

(** The same run, cut at the write that turns the internal oscillator
    and the multiplier off. *)
Lemma HSE_PLL_turns_HSI_off_on_simulator :
  exists l1 p1 l3,
    evs (CLK_init_HSE_PLL 10 (sim_at 0))
    = l1 ++ Store RCC_CTLR 0x10000 :: Store RCC_CFGR0 0x10001
         :: Store RCC_CTLR 0x1010000 :: p1 ++ l3 /\
    stores_to RCC_CFGR0 l1 = [0x1] /\
    existsb (is_load RCC_CFGR0) l1 = false /\
    poll_log RCC_CTLR (fun x => Z.land x RCC_PLLRDY =? 0) p1.
Proof.
  destruct (HSE_PLL_turns_HSI_off_without_readback 10 (sim_at 0))
    as (HSE_PLL & _).
  apply HSE_PLL. vm_compute. reflexivity.
Defined.

(** On the simulated device, whose SysTick counts freely, a delay of
    0xFFFFFFFF ticks returns after 6. *)
Lemma delay_returns_early_for_large_n :
  out (DLY_ticks 1 0xFFFFFFFF (sim_at 0)) = Done tt /\
  ~ ticks (sim_at 0) + 0xFFFFFFFF
    <= ticks (dev (DLY_ticks 1 0xFFFFFFFF (sim_at 0))).
Proof.
  split; [vm_compute; reflexivity|].
  vm_compute. intros L. apply L. reflexivity.
Qed.

(** A delay of 20 ticks begun 10 ticks before the counter wraps. *)
Lemma delay_waits_across_wraparound :
  0 <= 20 <= 2 ^ 31 /\
  out (DLY_ticks 10 20 (sim_at (2 ^ 32 - 10))) = Done tt /\
  ticks (sim_at (2 ^ 32 - 10)) + 20
  <= ticks (dev (DLY_ticks 10 20 (sim_at (2 ^ 32 - 10)))).
Proof.
  assert (R : 0 <= 20 <= 2 ^ 31) by lia.
  assert (D : out (DLY_ticks 10 20 (sim_at (2 ^ 32 - 10))) = Done tt)
    by (vm_compute; reflexivity).
  split; [exact R|]. split; [exact D|].
  exact (delay_waits_at_least_n ticks 10 20 (sim_at (2 ^ 32 - 10)) R D).
Defined.

(** Standby on the simulated CH32V003, where SLEEPDEEP is bit 2. *)
Lemma deep_sleep_flag_on_simulator :
  wrap32 PFIC_SLEEPDEEP <> 0 /\
  brackets_wait (wrap32 PFIC_SLEEPDEEP) m_WFI (STDBY_WFI_now (sim_at 0)) /\
  brackets_wait (wrap32 PFIC_SLEEPDEEP) m_WFE (STDBY_WFE_now (sim_at 0)).
Proof.
  assert (NZ : wrap32 PFIC_SLEEPDEEP <> 0) by (vm_compute; discriminate).
  split; [exact NZ|].
  exact (deep_sleep_flag_brackets_the_wait (sim_at 0) NZ).
Defined.

(** Sleep and standby on the simulated CH32V003, whose power control
    register is plain storage and holds 0 after power-on. *)
Lemma sleep_and_standby_on_simulator :
  Latched PWR_CTLR (fun s => regs s PWR_CTLR) /\
  (exists new,
      stores_to PWR_CTLR (evs (SLEEP_WFI_now (sim_at 0))) = [new] /\
      clears_only PWR_CTLR_PDDS 0 new) /\
  Z.land (regs (dev (STDBY_WFE_now (sim_at 0))) PWR_CTLR) 0x2 = 0x2.
Proof.
  pose proof sim_power_control_latched as L.
  destruct (sleep_clears_only_PDDS_and_standby_leaves_it_set
              (sim_at 0) (fun s => regs s PWR_CTLR) L) as [Sleep Standby].
  split; [exact L|]. split.
  - destruct (Sleep (SLEEP_WFI_now (sim_at 0)) (or_introl eq_refl))
      as (new & _ & S & C & _).
    exists new. split; [exact S | exact C].
  - destruct (Standby (STDBY_WFE_now (sim_at 0)) (or_intror eq_refl))
      as (_ & P & -> & _).
    exact P.
Defined.

(** A watchdog period of 1001 ms on the simulated device, whose busy
    flags clear at the third read: both functions return, and the
    reload value is 500. *)
Lemma watchdog_writes_half_on_simulator :
  0 <= 1001 < 2 ^ 16 /\
  Settling IWDG_PVU 3 /\ Settling IWDG_RVU 3 /\ (3 <= 10)%nat /\
  dev_call m_LSI_enable (sim_at 0) = Some (sim_at 100) /\
  (out (IWDG_start 10 1001 (sim_at 0)) = Done tt /\
   stores_to IWDG_RLDR (evs (IWDG_start 10 1001 (sim_at 0))) = [500]) /\
  (out (IWDG_reload 10 1001 (sim_at 0)) = Done tt /\
   stores_to IWDG_RLDR (evs (IWDG_reload 10 1001 (sim_at 0))) = [500]).
Proof.
  assert (R : 0 <= 1001 < 2 ^ 16) by lia.
  assert (L : (3 <= 10)%nat) by lia.
  assert (E : dev_call m_LSI_enable (sim_at 0) = Some (sim_at 100))
    by reflexivity.
  destruct (watchdog_writes_half_the_period 10 3 1001 (sim_at 0) (sim_at 100)
              R (sim_settling IWDG_PVU) (sim_settling IWDG_RVU) L E)
    as (S & W & _).
  split; [exact R|].
  split; [exact (sim_settling IWDG_PVU)|].
  split; [exact (sim_settling IWDG_RVU)|].
  split; [exact L|]. split; [exact E|].
  split; [exact S | exact W].
Defined.

(** The simulated reload register, 12 bits wide: the watchdog functions
    return for 8191 ms and for 8192 ms; after 8191 ms the register
    holds 4095, after 8192 ms it holds 0. *)
Lemma watchdog_boundary_on_simulator :
  Settling IWDG_PVU 3 /\ Settling IWDG_RVU 3 /\ (3 <= 10)%nat /\
  dev_call m_LSI_enable (sim_at 0) = Some (sim_at 100) /\
  ReloadField (fun s => regs s IWDG_RLDR) /\
  (out (IWDG_start 10 8191 (sim_at 0)) = Done tt /\
   out (IWDG_reload 10 8191 (sim_at 0)) = Done tt) /\
  (out (IWDG_start 10 8192 (sim_at 0)) = Done tt /\
   out (IWDG_reload 10 8192 (sim_at 0)) = Done tt) /\
  (regs (dev (IWDG_start 10 8191 (sim_at 0))) IWDG_RLDR = 4095 /\
   regs (dev (IWDG_reload 10 8191 (sim_at 0))) IWDG_RLDR = 4095) /\
  stores_to IWDG_RLDR (evs (IWDG_start 10 8192 (sim_at 0))) = [4096] /\
  stores_to IWDG_RLDR (evs (IWDG_reload 10 8192 (sim_at 0))) = [4096] /\
  regs (dev (IWDG_start 10 8192 (sim_at 0))) IWDG_RLDR = 0 /\
  regs (dev (IWDG_reload 10 8192 (sim_at 0))) IWDG_RLDR = 0.
Proof.
  assert (L : (3 <= 10)%nat) by lia.
  assert (E : dev_call m_LSI_enable (sim_at 0) = Some (sim_at 100))
    by reflexivity.
  assert (R : 0 <= 8191 <= 8191) by lia.
  destruct (watchdog_period_boundary 10 3 (sim_at 0) (sim_at 100)
              (fun s => regs s IWDG_RLDR)
              (sim_settling IWDG_PVU) (sim_settling IWDG_RVU) L E
              sim_reload_field)
    as (D & F & _ & Ws & Wr & Ps & Pr & _).
  split; [exact (sim_settling IWDG_PVU)|].
  split; [exact (sim_settling IWDG_RVU)|].
  split; [exact L|]. split; [exact E|].
  split; [exact sim_reload_field|].
  split; [exact (D 8191)|]. split; [exact (D 8192)|].
  split; [exact (F 8191 R)|].
  split; [exact Ws|]. split; [exact Wr|].
  split; [exact Ps | exact Pr].
Defined.

(** The watchdog functions on the simulated device, where they return,
    and [IWDG_start] on a device whose low-speed clock macro does not
    come back. *)
Lemma watchdog_keys_on_simulator :
  (out (IWDG_start 10 1001 (sim_at 0)) = Done tt /\
   IWDG_start_order 1001 (evs (IWDG_start 10 1001 (sim_at 0)))) /\
  (out (IWDG_reload 10 1001 (sim_at 0)) = Done tt /\
   IWDG_reload_order 1001 (evs (IWDG_reload 10 1001 (sim_at 0)))) /\
  @dev_call dead dead_device m_LSI_enable Dead = None /\
  @IWDG_start dead dead_device ch32v003_h 10 1001 Dead
  = mkRun Hang Dead [Call m_LSI_enable].
Proof.
  assert (Ds : out (IWDG_start 10 1001 (sim_at 0)) = Done tt)
    by (vm_compute; reflexivity).
  assert (Dr : out (IWDG_reload 10 1001 (sim_at 0)) = Done tt)
    by (vm_compute; reflexivity).
  destruct (watchdog_keys_and_busy_flags 10 1001 (sim_at 0))
    as (_ & S & W & _).
  destruct (@watchdog_keys_and_busy_flags dead dead_device ch32v003_h
              10 1001 Dead) as (N & _).
  split; [exact (conj Ds (S Ds))|].
  split; [exact (conj Dr (W Dr))|].
  split; [reflexivity | exact (N eq_refl)].
Defined.

(** Start-up on the simulated device with the small memory image: three
    words of data loaded from flash, three words of bss cleared. *)
Lemma reset_on_simulator :
  layout_ok /\
  exists m',
    out (handle_reset 10 demo_memory (sim_at 0)) = Done m' /\
    (forall a, bss_word a -> m' a = 0) /\
    (forall a, data_word a ->
               m' a = demo_memory (_data_lma + (a - _data_vma))).
Proof.
  pose proof demo_layout_ok as L.
  assert (R : returned (handle_reset 10 demo_memory (sim_at 0)) = true)
    by (vm_compute; reflexivity).
  split; [exact L|].
  unfold returned in R.
  destruct (out (handle_reset 10 demo_memory (sim_at 0))) as [m'|] eqn:E;
    [|discriminate R].
  exists m'. split; [reflexivity|].
  exact (proj2 (reset_zeroes_bss_and_loads_data
                  10 demo_memory (sim_at 0) L) m' E).
Defined.

(** On a device where nothing ever becomes ready, a poll of a ready
    flag is still waiting whatever the number of reads allowed, and so
    is [CLK_init_HSE]. *)
Lemma dead_poll (fuel : nat) (mask : Z) :
  out (poll_while (H := dead_device) fuel RCC_CTLR
         (fun x => Z.land x mask =? 0) Dead) = Hang.
Proof.
  induction fuel as [|k IH]; [reflexivity|].
  unfold poll_while in *. cbn [while_].
  rewrite bind_run, load_then. cbv beta. log_simpl.
  cbn [dev_load dead_device fst snd]. change (wrap32 0) with 0.
  cbn [Z.land Z.eqb]. rewrite bind_run. log_simpl. exact IH.
Qed.

Lemma crystal_that_never_starts (fuel : nat) :
  out (CLK_init_HSE (H := dead_device) fuel Dead) = Hang.
Proof.
  unfold CLK_init_HSE. exec. log_simpl. rewrite bind_run.
  cbn [dev_load dev_store dead_device fst snd].
  now rewrite dead_poll.
Qed.
(** [SYS_init] on the simulated CH32V003, all three steps enabled. *)
Lemma SYS_init_on_simulator :
  exists a,
    evs (SYS_init (sim_at 0))
    = [Call m_CLK_init; Call m_STK_init;
       Load RCC_APB2PCENR (wrap32 a);
       Store RCC_APB2PCENR (wrap32 (Z.lor (wrap32 a) 0x34))].
Proof.
  destruct (proj1 (SYS_init_steps (sim_at 0))) as (a & E & _).
  - vm_compute. reflexivity.
  - exists a. exact E.
Defined.

(** [MCO_init] on the simulated CH32V003: pin 4 of port C. *)
Lemma MCO_init_on_simulator :
  Latched GPIOC_CFGLR (fun s => regs s GPIOC_CFGLR) /\
  forall i, 16 <= i < 20 ->
            Z.testbit (regs (dev (MCO_init (sim_at 0))) GPIOC_CFGLR) i
            = Z.testbit 0xB (i - 16).
Proof.
  pose proof sim_port_C_latched as L.
  split; [exact L|].
  exact (proj1 (proj2 (proj2 (proj2
           (MCO_init_configures_pin_4 (sim_at 0)
              (fun s => regs s GPIOC_CFGLR) L))))).
Defined.

(** The crystal pins on the simulated CH32V003. *)
Lemma crystal_pins_on_simulator :
  precedesb (store_with RCC_APB2PCENR (wrap32 RCC_AFIOEN))
    (is_access AFIO_PCFR1) (evs (CLK_init_HSE 10 (sim_at 0))) = true.
Proof.
  exact (proj1 (crystal_pins_remapped_behind_clock_gate 10 (sim_at 0)
                  (CLK_init_HSE 10 (sim_at 0)) (or_introl eq_refl))).
Defined.

(** A delay of 5 ticks on the simulated device, whose counter advances
    by 3 ticks from read to read. *)
Lemma delay_bounds_on_simulator :
  0 <= 5 /\ 5 + 3 < 2 ^ 31 /\ Z.of_nat 10 > 5 /\
  out (DLY_ticks 10 5 (sim_at 0)) = Done tt /\
  ticks (sim_at 0) + 5 < ticks (dev (DLY_ticks 10 5 (sim_at 0)))
  <= ticks (sim_at 0) + 5 + 2 * 3.
Proof.
  assert (R1 : 0 <= 5) by lia.
  assert (R2 : 5 + 3 < 2 ^ 31) by lia.
  assert (R3 : Z.of_nat 10 > 5) by lia.
  split; [exact R1|]. split; [exact R2|]. split; [exact R3|].
  exact (delay_ends_within_two_steps_of_n ticks 3 10 5 (sim_at 0) R1 R2 R3).
Defined.

(** Start-up on the simulated device: what is outside the two regions
    keeps its content, and the device sees the start-up assembly,
    [SYS_init] and the [mret]. *)
Lemma reset_frame_on_simulator :
  layout_ok /\
  exists m',
    out (handle_reset 10 demo_memory (sim_at 0)) = Done m' /\
    (forall a, _data_lma <= a < _data_lma + (_edata - _data_vma) ->
               m' a = demo_memory a).
Proof.
  pose proof demo_layout_ok as L.
  assert (R : returned (handle_reset 10 demo_memory (sim_at 0)) = true)
    by (vm_compute; reflexivity).
  split; [exact L|].
  unfold returned in R.
  destruct (out (handle_reset 10 demo_memory (sim_at 0))) as [m'|] eqn:E;
    [|discriminate R].
  exists m'. split; [reflexivity|].
  exact (proj2 (reset_leaves_other_memory 10 demo_memory m' (sim_at 0) L E)).
Defined.


(** Standby, then sleep, on the simulated CH32V003. *)
Lemma sleep_after_standby_on_simulator :
  Latched PWR_CTLR (fun s => regs s PWR_CTLR) /\
  out (STDBY_WFI_now (sim_at 0)) = Done tt /\
  clears_only PWR_CTLR_PDDS 0
    (regs (dev ((STDBY_WFI_now ;; SLEEP_WFE_now) (sim_at 0))) PWR_CTLR).
Proof.
  pose proof sim_power_control_latched as L.
  assert (D : out (STDBY_WFI_now (sim_at 0)) = Done tt)
    by (vm_compute; reflexivity).
  split; [exact L|]. split; [exact D|].
  exact (sleep_after_standby_clears_PDDS (sim_at 0)
           (fun s => regs s PWR_CTLR) STDBY_WFI_now SLEEP_WFE_now L
           (or_introl eq_refl) (or_intror eq_refl) D).
Defined.

(** A device that never reports anything ready. *)
Lemma crystal_functions_on_dead_device :
  (forall h', Z.land (wrap32 (fst (dev_load (Device := dead_device)
                                     RCC_CTLR h'))) RCC_HSERDY = 0) /\
  out (CLK_init_HSE (H := dead_device) 1000 Dead) = Hang.
Proof.
  assert (N : forall h', Z.land (wrap32 (fst (dev_load (Device := dead_device)
                                                RCC_CTLR h'))) RCC_HSERDY = 0)
    by (intros h'; reflexivity).
  split; [exact N|].
  exact (proj1 (proj1 (crystal_functions_wait_without_timeout
                         (H := dead_device) 1000 Dead N))).
Defined.

(** [AWU_init] on the simulated CH32V003. *)
Lemma AWU_init_on_simulator :
  out (AWU_init (sim_at 0)) = Done tt.
Proof.
  exact (proj1 (proj2 (AWU_init_steps (sim_at 0)) _ eq_refl)).
Defined.
End OnTheSimulator.
